(** * RADS-AT simulator: the BHT-412-MM sequential decision engine

    A shallow embedding of [rads/models/diagnosis.py]: the five gated
    stage-status functions, the per-stage correction details, and the
    angle, clock and rounding helpers they share.

    Numbers are IEEE-754 binary64 values, as Python's [float] is, so the
    arithmetic below is the arithmetic the program performs; the few
    operations that the kernel's floats lack (remainder, rounding to an
    integer, fixed-point formatting) are computed exactly through the
    mantissa and exponent of the operands.  Python exceptions are values
    of an error monad. *)

From Stdlib Require Import ZArith Floats String Ascii List Bool Lia.
From stdpp Require Import base option gmap strings pretty sorting.

Set Warnings "-inexact-float,-register-all".
Local Open Scope Z_scope.

(** ** Exceptions and the error monad *)

Inductive exn : Set :=
| TypeError
| AttributeError
| ValueError
| OverflowError
| ZeroDivisionError
| OSError.

Inductive result (A : Type) : Type :=
| Ok (a : A)
| Raise (e : exn).

Arguments Ok {A} a.
Arguments Raise {A} e.

Definition bind {A B : Type} (r : result A) (k : A -> result B) : result B :=
  match r with
  | Ok a => k a
  | Raise e => Raise e
  end.

Notation "'let*' x ':=' r 'in' k" := (bind r (fun x => k))
  (at level 10, x pattern, r at level 100, k at level 200).

Definition raises {A : Type} (r : result A) : Prop :=
  exists e, r = Raise e.

Definition returns {A : Type} (r : result A) : Prop :=
  exists a, r = Ok a.

(** ** Python numbers

    [float] values are binary64; an [int] is unbounded.  [num] is the part
    of the numeric tower the engine's helpers meet: [_round_to] is called
    with an [int] step (10) and with a [float] step (0.1) and its result
    type follows the step's. *)

Inductive num : Set :=
| NInt (z : Z)
| NFloat (x : float).

Module Py.

(** [float(z)] for an int: the nearest binary64 value, [OverflowError]
    when that is out of range. *)
Definition float_of_int (z : Z) : result float :=
  let x := SF2Prim (binary_normalize prec emax z 0 false) in
  if is_infinity x then Raise OverflowError else Ok x.

(** [x / y] on floats. *)
Definition truediv (x y : float) : result float :=
  if (y =? 0)%float then Raise ZeroDivisionError else Ok (x / y)%float.

(** The integer nearest to [(-1)^s * m * 2^e], ties to the even one. *)
Definition round_half_even (s : bool) (m : Z) (e : Z) : Z :=
  let a :=
    if 0 <=? e then m * 2 ^ e
    else
      let d := 2 ^ (- e) in
      let q := m / d in
      let r := m mod d in
      match 2 * r ?= d with
      | Lt => q
      | Gt => q + 1
      | Eq => if Z.even q then q else q + 1
      end in
  if s then - a else a.

(** [round(x)] with no digits: an int. *)
Definition round (x : float) : result Z :=
  match Prim2SF x with
  | S754_nan => Raise ValueError
  | S754_infinity _ => Raise OverflowError
  | S754_zero _ => Ok 0
  | S754_finite s m e => Ok (round_half_even s (Zpos m) e)
  end.

(** [int(x)]: truncation towards zero. *)
Definition int (x : float) : result Z :=
  match Prim2SF x with
  | S754_nan => Raise ValueError
  | S754_infinity _ => Raise OverflowError
  | S754_zero _ => Ok 0
  | S754_finite s m e =>
      let a := if 0 <=? e then Zpos m * 2 ^ e else Zpos m / 2 ^ (- e) in
      Ok (if s then - a else a)
  end.

(** C's [fmod]: the exact remainder, with the sign of [x]. *)
Definition fmod (x y : float) : float :=
  match Prim2SF x, Prim2SF y with
  | S754_nan, _ | _, S754_nan => nan
  | S754_infinity _, _ => nan
  | _, S754_zero _ => nan
  | S754_zero _, _ => x
  | S754_finite _ _ _, S754_infinity _ => x
  | S754_finite sx mx ex, S754_finite _ my ey =>
      let e := Z.min ex ey in
      let r := (Zpos mx * 2 ^ (ex - e)) mod (Zpos my * 2 ^ (ey - e)) in
      match r with
      | Zpos p => SF2Prim (S754_finite sx p e)
      | _ => if sx then PrimFloat.neg_zero else PrimFloat.zero
      end
  end.

(** [x % y] on floats once [y] is known not to be zero ([float_rem] of
    CPython): the remainder takes the sign of the divisor. *)
Definition float_rem (x y : float) : float :=
  let m := fmod x y in
  if (m =? 0)%float then (if (y <? 0)%float then PrimFloat.neg_zero else PrimFloat.zero)
  else if xorb (y <? 0)%float (m <? 0)%float then (m + y)%float
  else m.

Definition mod_ (x y : float) : result float :=
  if (y =? 0)%float then Raise ZeroDivisionError else Ok (float_rem x y).

(** [max(a, b)]: the first of the largest. *)
Definition max_float (a b : float) : float :=
  if (a <? b)%float then b else a.

(** *** Strings *)

(** A [str] is kept as its UTF-8 bytes; [len] and slices count code
    points, so continuation bytes (10xxxxxx) ride with their lead byte. *)
Definition is_continuation (c : ascii) : bool :=
  let n := nat_of_ascii c in
  (Nat.leb 128 n && Nat.ltb n 192)%bool.

Fixpoint len (s : string) : nat :=
  match s with
  | EmptyString => 0%nat
  | String c r => if is_continuation c then len r else S (len r)
  end.

Fixpoint take_continuation (s : string) : string * string :=
  match s with
  | EmptyString => (EmptyString, EmptyString)
  | String c r =>
      if is_continuation c then
        let '(k, r') := take_continuation r in (String c k, r')
      else (EmptyString, s)
  end.

(** [(s[:n], s[n:])]. *)
Fixpoint split_at (n : nat) (s : string) : string * string :=
  match n with
  | O => (EmptyString, s)
  | S n' =>
      match s with
      | EmptyString => (EmptyString, EmptyString)
      | String c r =>
          let '(k, r') := take_continuation r in
          let '(a, b) := split_at n' r' in
          (String c (k +:+ a), b)
      end
  end.

(** [s.split(sep)[0]]: the text before the first [sep]. *)
Fixpoint before (sep : ascii) (s : string) : string :=
  match s with
  | EmptyString => EmptyString
  | String c r => if Ascii.eqb c sep then EmptyString else String c (before sep r)
  end.

Definition digit_of (c : ascii) : option Z :=
  let n := nat_of_ascii c in
  if (Nat.leb 48 n && Nat.leb n 57)%bool then Some (Z.of_nat (n - 48)) else None.

Fixpoint digits_value (acc : Z) (s : string) : option Z :=
  match s with
  | EmptyString => Some acc
  | String c r =>
      match digit_of c with
      | Some d => digits_value (10 * acc + d) r
      | None => None
      end
  end.

(** [int(s)] for a string of decimal digits; anything else is a
    [ValueError] here. *)
Definition int_of_str (s : string) : result Z :=
  match s with
  | EmptyString => Raise ValueError
  | _ => match digits_value 0 s with
         | Some z => Ok z
         | None => Raise ValueError
         end
  end.

(** [str(z)] and [f"{z}"] for an int. *)
Definition str_of_int (z : Z) : string := pretty z.

Fixpoint zeros (n : nat) : string :=
  match n with
  | O => EmptyString
  | S n' => String "0" (zeros n')
  end.

(** The digits of [i >= 0] with the point [n] places from the right. *)
Definition fixed_digits (n : nat) (i : Z) : string :=
  let p := 10 ^ Z.of_nat n in
  let whole := pretty (i / p) in
  match n with
  | O => whole
  | _ =>
      let frac := pretty (i mod p) in
      whole +:+ "." +:+ zeros (n - String.length frac) +:+ frac
  end.

(** [f"{x:.nf}"]: the decimal expansion of the exact value of [x], rounded
    to [n] places, ties to even. *)
Definition format_f (n : nat) (x : float) : string :=
  match Prim2SF x with
  | S754_nan => "nan"
  | S754_infinity s => if s then "-inf" else "inf"
  | S754_zero s => (if s then "-" else "") +:+ fixed_digits n 0
  | S754_finite s m e =>
      (if s then "-" else "")
        +:+ fixed_digits n (round_half_even false (Zpos m * 10 ^ Z.of_nat n) e)
  end.

End Py.

(** ** Data model *)

(** What a measurement record holds under a key: JSON [null], a number
    (an [int] such as a blade offset in millimetres is read through
    [float(...)], so it is kept as the float it becomes), or a mapping of
    blade labels to numbers ([track_rel_mm]). *)
Inductive pyval : Type :=
| PNone
| PNum (x : float)
| PDict (d : gmap string float).

(** A measurement record is a [dict]; a run set maps regime names to
    records. *)
Abbreviation record := (gmap string pyval).
Abbreviation runset := (gmap string (gmap string pyval)).

Inductive status : Set :=
| LOCKED
| MISSING
| NEEDS
| DONE.

Definition status_eqb (a b : status) : bool :=
  match a, b with
  | LOCKED, LOCKED | MISSING, MISSING | NEEDS, NEEDS | DONE, DONE => true
  | _, _ => false
  end.

Definition status_str (s : status) : string :=
  match s with
  | LOCKED => "LOCKED"
  | MISSING => "MISSING"
  | NEEDS => "NEEDS"
  | DONE => "DONE"
  end.

Record StepSummary : Set := mkStepSummary {
  step_id : string;
  label : string;
  step_status : status
}.

(** [cfg["state_map"]]: canonical stage id to its accepted regime names,
    in priority order. *)
Record StateMap : Set := mkStateMap {
  sm_track60 : list string;
  sm_ground100 : list string;
  sm_hover : list string;
  sm_kias120 : list string;
  sm_letdown : list string
}.

(** The parameter set of [config/bht412_mm.json], with the keys the engine
    reads.  [blade_azimuth_deg] keeps the order of the JSON object, which
    is the order [dict.items()] yields; the engine reads it with
    [cfg.get(..., {})], so the empty list also stands for an absent key. *)
Record Config : Type := mkConfig {
  track_pair_tol_in : float;
  sep_tol_in : float;
  pair_separation_in : float;
  pitch_link_flat_in : float;
  ground_ips_limit : float;
  hover_ips_limit : float;
  kias120_vert_limit : float;
  letdown_ips_limit : float;
  hub_weight_sensitivity_ips_per_100g : float;
  product_weights_per_ips : float;
  vertical_tab_ips_per_deg : float;
  blade_azimuth_deg : list (string * float);
  state_map : StateMap
}.

(** ** Reading a record *)

(** [not d] for a dict: only the empty one is false.  With [None], which
    [_pick_state] returns when no name matches, this is the [if not m]
    that opens every stage. *)
Definition dict_empty {A : Type} (d : gmap string A) : bool :=
  match map_to_list d with
  | [] => true
  | _ :: _ => false
  end.

(** [bool(v)]. *)
Definition truthy (v : pyval) : bool :=
  match v with
  | PNone => false
  | PNum x => negb (x =? 0)%float
  | PDict d => negb (dict_empty d)
  end.

(** [v or d]. *)
Definition py_or (v d : pyval) : pyval :=
  if truthy v then v else d.

(** [m.get(k, d)]. *)
Definition dict_get (m : record) (k : string) (d : pyval) : pyval :=
  match m !! k with
  | Some v => v
  | None => d
  end.

(** [float(v)]. *)
Definition py_float (v : pyval) : result float :=
  match v with
  | PNum x => Ok x
  | PNone | PDict _ => Raise TypeError
  end.

(** [float(m.get(key, m.get(legacy, 0.0)) or 0.0)], the way every lateral
    channel is read. *)
Definition get_aliased (m : record) (key legacy : string) : result float :=
  py_float (py_or (dict_get m key (dict_get m legacy (PNum 0))) (PNum 0)).

(** [float(m.get(key, 0.0) or 0.0)], the way the vertical channel is read. *)
Definition get_plain (m : record) (key : string) : result float :=
  py_float (py_or (dict_get m key (PNum 0)) (PNum 0)).

Definition lat_amp (m : record) : result float :=
  get_aliased m "lat_1r_ips" "vib_1r_ips".

Definition lat_phase (m : record) : result float :=
  get_aliased m "lat_1r_phase_deg" "vib_1r_phase_deg".

Definition vert_amp (m : record) : result float :=
  get_plain m "vert_1r_ips".

Definition vert_phase (m : record) : result float :=
  get_plain m "vert_1r_phase_deg".

(** ** Helpers *)

Fixpoint _pick_state (runs : runset) (candidates : list string) : option record :=
  match candidates with
  | [] => None
  | name :: rest =>
      match runs !! name with
      | Some m => Some m
      | None => _pick_state runs rest
      end
  end.

Record heights : Set := mkHeights {
  RED : float;
  BLU : float;
  ORG : float;
  GRN : float
}.

Record track_info : Set := mkTrackInfo {
  h_in : heights;
  rb_diff_in : float;
  og_diff_in : float;
  sep_in : float
}.

(** [track = m.get("track_rel_mm", {}) or {}], as the receiver of
    [track.get]: anything but a dict has no such method. *)
Definition track_of (m : record) : result (gmap string float) :=
  match py_or (dict_get m "track_rel_mm" (PDict ∅)) (PDict ∅) with
  | PDict d => Ok d
  | PNone | PNum _ => Raise AttributeError
  end.

(** [float(track.get(k, 0)) / 25.4]. *)
Definition height_in (track : gmap string float) (k : string) : float :=
  ((match track !! k with Some x => x | None => 0 end) / 25.4)%float.

Definition heights_in (track : gmap string float) : heights :=
  {| RED := height_in track "RED";
     BLU := height_in track "BLU";
     ORG := height_in track "ORG";
     GRN := height_in track "GRN" |}.

Definition track_info_of (h : heights) : track_info :=
  {| h_in := h;
     rb_diff_in := (RED h - BLU h)%float;
     og_diff_in := (ORG h - GRN h)%float;
     sep_in := ((RED h + BLU h) / 2 - (ORG h + GRN h) / 2)%float |}.

(** The three tolerance tests of [_track_checks]. *)
Definition track_ok (info : track_info) (cfg : Config) : bool :=
  (abs (rb_diff_in info) <=? track_pair_tol_in cfg)%float
  && (abs (og_diff_in info) <=? track_pair_tol_in cfg)%float
  && (abs (sep_in info - pair_separation_in cfg) <=? sep_tol_in cfg)%float.

Definition _track_checks (m : record) (cfg : Config) : result (bool * track_info) :=
  let* track := track_of m in
  let info := track_info_of (heights_in track) in
  Ok (track_ok info cfg, info).

(** ** Status evaluation *)

Definition limit_status (amp limit : float) : status :=
  if (amp <? limit)%float then DONE else NEEDS.

Definition _status_track60 (runs : runset) (cfg : Config) : result status :=
  match _pick_state runs (sm_track60 (state_map cfg)) with
  | None => Ok MISSING
  | Some m =>
      if dict_empty m then Ok MISSING
      else
        let* r := _track_checks m cfg in
        Ok (if fst r then DONE else NEEDS)
  end.

Definition _status_ground100 (runs : runset) (cfg : Config) (prev_ok : bool)
  : result status :=
  if negb prev_ok then Ok LOCKED
  else
    match _pick_state runs (sm_ground100 (state_map cfg)) with
    | None => Ok MISSING
    | Some m =>
        if dict_empty m then Ok MISSING
        else
          let* amp := lat_amp m in
          Ok (limit_status amp (ground_ips_limit cfg))
    end.

Definition _status_hover (runs : runset) (cfg : Config) (prev_ok : bool)
  : result status :=
  if negb prev_ok then Ok LOCKED
  else
    match _pick_state runs (sm_hover (state_map cfg)) with
    | None => Ok MISSING
    | Some m =>
        if dict_empty m then Ok MISSING
        else
          let* amp := lat_amp m in
          Ok (limit_status amp (hover_ips_limit cfg))
    end.

Definition _status_120k (runs : runset) (cfg : Config) (prev_ok : bool)
  : result status :=
  if negb prev_ok then Ok LOCKED
  else
    match _pick_state runs (sm_kias120 (state_map cfg)) with
    | None => Ok MISSING
    | Some m =>
        if dict_empty m then Ok MISSING
        else
          let* amp := vert_amp m in
          Ok (limit_status amp (kias120_vert_limit cfg))
    end.

Definition _status_letdown (runs : runset) (cfg : Config) (prev_ok : bool)
  : result status :=
  if negb prev_ok then Ok LOCKED
  else
    match _pick_state runs (sm_letdown (state_map cfg)) with
    | None => Ok MISSING
    | Some m =>
        if dict_empty m then Ok MISSING
        else
          let* amp := lat_amp m in
          Ok (limit_status amp (letdown_ips_limit cfg))
    end.

(** The five summaries, in stage order.  [cfg] is what [_load_cfg()]
    returned. *)
Definition step_summaries_for_bht412 (cfg : Config) (runs : runset)
  : result (list StepSummary) :=
  let* s1 := _status_track60 runs cfg in
  let* s2 := _status_ground100 runs cfg (status_eqb s1 DONE) in
  let* s3 := _status_hover runs cfg (status_eqb s1 DONE && status_eqb s2 DONE) in
  let* s4 := _status_120k runs cfg
               (status_eqb s1 DONE && status_eqb s2 DONE && status_eqb s3 DONE) in
  let* s5 := _status_letdown runs cfg
               (status_eqb s1 DONE && status_eqb s2 DONE && status_eqb s3 DONE
                && status_eqb s4 DONE) in
  Ok [ mkStepSummary "track60" "GND 60% NR  Track Mech" s1;
       mkStepSummary "ground100" "GND 100% NR  Mass Bal" s2;
       mkStepSummary "hover" "HOVER  Lateral Decision" s3;
       mkStepSummary "kias120" "120 KIAS  Vertical Smooth" s4;
       mkStepSummary "letdown" "LETDOWN  Final Trim" s5 ].

(** ** Rounding, angles and clock labels *)

(** [len(s) > width] drives the loop of [_wrap]; every turn removes
    [width] characters, so [len(s)] turns are more than enough. *)
Fixpoint wrap_line (fuel width : nat) (s : string) : list string :=
  match fuel with
  | O => [s]
  | S fuel' =>
      if Nat.ltb width (Py.len s) then
        let '(a, b) := Py.split_at width s in a :: wrap_line fuel' width b
      else [s]
  end.

Definition _wrap (lines : list string) : list string :=
  flat_map (fun ln => wrap_line (Py.len ln) 38 ln) lines.

Definition num_le0 (n : num) : bool :=
  match n with
  | NInt z => z <=? 0
  | NFloat f => (f <=? 0)%float
  end.

Definition _round_to (x : float) (step : num) : result num :=
  if num_le0 step then Ok (NFloat x)
  else
    match step with
    | NInt z =>
        let* fz := Py.float_of_int z in
        let* q := Py.truediv x fz in
        let* r := Py.round q in
        Ok (NInt (r * z))
    | NFloat f =>
        let* q := Py.truediv x f in
        let* r := Py.round q in
        let* fr := Py.float_of_int r in
        Ok (NFloat (fr * f))
    end.

(** [int(n)]. *)
Definition num_int (n : num) : result Z :=
  match n with
  | NInt z => Ok z
  | NFloat x => Py.int x
  end.

(** [float(n)]. *)
Definition num_float (n : num) : result float :=
  match n with
  | NInt z => Py.float_of_int z
  | NFloat x => Ok x
  end.

(** [x < z] and [z < x] between a float and an int compare the exact
    values. *)
Definition float_lt_int (x : float) (z : Z) : bool :=
  match Prim2SF x with
  | S754_nan => false
  | S754_infinity s => s
  | S754_zero _ => 0 <? z
  | S754_finite s m e =>
      let v := if s then Zneg m else Zpos m in
      if 0 <=? e then v * 2 ^ e <? z else v <? z * 2 ^ (- e)
  end.

Definition int_lt_float (z : Z) (x : float) : bool :=
  match Prim2SF x with
  | S754_nan => false
  | S754_infinity s => negb s
  | S754_zero _ => z <? 0
  | S754_finite s m e =>
      let v := if s then Zneg m else Zpos m in
      if 0 <=? e then z <? v * 2 ^ e else z * 2 ^ (- e) <? v
  end.

Definition num_ltb (a b : num) : bool :=
  match a, b with
  | NInt x, NInt y => x <? y
  | NFloat x, NFloat y => (x <? y)%float
  | NFloat x, NInt y => float_lt_int x y
  | NInt x, NFloat y => int_lt_float x y
  end.

(** [max(a, b)]. *)
Definition num_max (a b : num) : num :=
  if num_ltb a b then b else a.

(** [f"{n:.df}"]. *)
Definition num_format_f (d : nat) (n : num) : result string :=
  let* x := num_float n in Ok (Py.format_f d x).

Definition _ang_diff_deg (a b : float) : float :=
  let d := Py.float_rem (a - b) 360 in
  let d := if (180 <? d)%float then (360 - d)%float else d in
  abs d.

Definition _deg_to_clock (deg : float) : result string :=
  let d := Py.float_rem deg 360 in
  let hours := (d / 30)%float in
  let* r := Py.round (hours * 2)%float in
  let* fr := Py.float_of_int r in
  let half := (fr / 2)%float in
  let* ih := Py.int half in
  let h := ih mod 12 in
  let h := if h =? 0 then 12 else h in
  let* fih := Py.float_of_int ih in
  if (abs (half - fih) <? 1e-9)%float
  then Ok (Py.str_of_int h +:+ ":00")
  else Ok (Py.str_of_int h +:+ ":30").

Definition _hub_split_hint (corr_deg : float) : result string :=
  let* clock := _deg_to_clock corr_deg in
  let* h := Py.int_of_str (Py.before ":" clock) in
  if (h =? 11) || (h =? 12) || (h =? 1) then Ok "Split nearest: GRN/ORG"
  else if (h =? 2) || (h =? 3) || (h =? 4) then Ok "Split nearest: RED/BLU"
  else if (h =? 5) || (h =? 6) || (h =? 7) then Ok "Split nearest: BLU/ORG"
  else Ok "Split nearest: GRN/RED".

(** The loop of [_nearest_blade]: [(best, best_d)] after the items seen. *)
Fixpoint nearest_loop (phase_deg : float) (items : list (string * float))
    (best : option string) (best_d : float) : option string :=
  match items with
  | [] => best
  | (blade, az) :: rest =>
      let d := _ang_diff_deg phase_deg az in
      if (d <? best_d)%float
      then nearest_loop phase_deg rest (Some blade) d
      else nearest_loop phase_deg rest best best_d
  end.

Definition _nearest_blade (phase_deg : float) (blade_az : list (string * float))
  : string :=
  match blade_az with
  | [] => "(BLADE)"
  | _ :: _ =>
      match nearest_loop phase_deg blade_az None 1e9 with
      | None | Some EmptyString => "(BLADE)"
      | Some best => best
      end
  end.

(** ** Step details that need no trigonometry *)

Definition status_line (ok : bool) : string :=
  "Status: " +:+ (if ok then "DONE" else "NEEDS").

(** [max(1, int(round(abs(delta) / flat_in)))]. *)
Definition flats_for (delta flat_in : float) : result Z :=
  let* q := Py.truediv (abs delta) flat_in in
  let* r := Py.round q in
  Ok (Z.max 1 r).

Definition _detail_track60 (runs : runset) (cfg : Config)
  : result (string * list string) :=
  match _pick_state runs (sm_track60 (state_map cfg)) with
  | None => Ok ("60% NR (Track)", ["No 60% NR track measurement."])
  | Some m =>
      if dict_empty m then Ok ("60% NR (Track)", ["No 60% NR track measurement."])
      else
        let* r := _track_checks m cfg in
        let ok := fst r in
        let info := snd r in
        let title := "60% NR - Track Mechanical" in
        let lines :=
          [ status_line ok;
            "Pair sep: " +:+ Py.format_f 2 (sep_in info) +:+ " in (target "
              +:+ Py.format_f 2 (pair_separation_in cfg) +:+ ")";
            "RB diff : " +:+ Py.format_f 2 (rb_diff_in info) +:+ " in";
            "OG diff : " +:+ Py.format_f 2 (og_diff_in info) +:+ " in" ] in
        if ok then Ok (title, _wrap (lines ++ ["No correction required."]))
        else
          let flat_in := pitch_link_flat_in cfg in
          let tol := track_pair_tol_in cfg in
          let sep_tol := sep_tol_in cfg in
          let target_sep := pair_separation_in cfg in
          let red := RED (h_in info) in
          let blu := BLU (h_in info) in
          let* pair1 :=
            if (tol <? abs (red - blu))%float then
              let* flats := flats_for (red - blu)%float flat_in in
              if (blu <? red)%float
              then Ok ["Lengthen BLU pitch link: +" +:+ Py.str_of_int flats +:+ " flats"]
              else Ok ["Lengthen RED pitch link: +" +:+ Py.str_of_int flats +:+ " flats"]
            else Ok [] in
          let org := ORG (h_in info) in
          let grn := GRN (h_in info) in
          let* pair2 :=
            if (tol <? abs (org - grn))%float then
              let* flats := flats_for (org - grn)%float flat_in in
              if (grn <? org)%float
              then Ok ["Lengthen GRN pitch link: +" +:+ Py.str_of_int flats +:+ " flats"]
              else Ok ["Lengthen ORG pitch link: +" +:+ Py.str_of_int flats +:+ " flats"]
            else Ok [] in
          let* sep :=
            if (sep_tol <? abs (sep_in info - target_sep))%float then
              let delta := (target_sep - sep_in info)%float in
              let* flats := flats_for delta flat_in in
              if (0 <? delta)%float
              then Ok ["Move ORG/GRN pair DOWN: shorten both " +:+ Py.str_of_int flats
                         +:+ " flats"]
              else Ok ["Move ORG/GRN pair UP: lengthen both " +:+ Py.str_of_int flats
                         +:+ " flats"]
            else Ok [] in
          Ok (title,
              _wrap (lines ++ pair1 ++ pair2 ++ sep ++ ["Re-measure 60NR to validate."]))
  end.

(** [corr_deg = (ph + 180.0) % 360.0]. *)
Definition correction_angle (ph : float) : float :=
  Py.float_rem (ph + 180) 360.

(** [_round_to((amp / ips_per_100g) * 100.0, 10)]. *)
Definition hub_grams (amp ips_per_100g : float) : result num :=
  let* q := Py.truediv amp ips_per_100g in
  _round_to (q * 100)%float (NInt 10).

Definition lat_line (amp ph : float) : string :=
  "LAT 1R: " +:+ Py.format_f 3 amp +:+ " ips @ " +:+ Py.format_f 1 ph +:+ "°".

Definition limit_line (limit : float) : string :=
  "Limit : < " +:+ Py.format_f 2 limit +:+ " ips".

Definition _detail_ground100 (runs : runset) (cfg : Config)
  : result (string * list string) :=
  match _pick_state runs (sm_ground100 (state_map cfg)) with
  | None => Ok ("100% NR (Ground Bal)", ["No 100% NR ground measurement."])
  | Some m =>
      if dict_empty m
      then Ok ("100% NR (Ground Bal)", ["No 100% NR ground measurement."])
      else
        let* amp := lat_amp m in
        let* ph := lat_phase m in
        let limit := ground_ips_limit cfg in
        let ok := (amp <? limit)%float in
        let title := "100% NR - Ground Mass Balance" in
        let lines := [status_line ok; lat_line amp ph; limit_line limit] in
        if ok then Ok (title, _wrap (lines ++ ["No correction required."]))
        else
          let* grams := hub_grams amp (hub_weight_sensitivity_ips_per_100g cfg) in
          let corr_deg := correction_angle ph in
          let* corr_clock := _deg_to_clock corr_deg in
          let* g := num_int grams in
          let* hint := _hub_split_hint corr_deg in
          Ok (title,
              _wrap (lines ++
                     [ "Add HUB weight: ~" +:+ Py.str_of_int g +:+ " g";
                       "Place @ " +:+ corr_clock +:+ " (180° from peak)";
                       hint;
                       "Re-measure 100NR to validate." ]))
  end.

(** [max(1, int(round(amp_h * weights_per_ips)))]. *)
Definition tip_units (amp_h weights_per_ips : float) : result Z :=
  let* r := Py.round (amp_h * weights_per_ips)%float in
  Ok (Z.max 1 r).

(** The ground reference of the hover decision: the line reported and the
    angle difference [d], 999.0 when no ground record is found. *)
Definition hover_reference (ph_h : float) (gnd : option record)
  : result (string * float) :=
  match gnd with
  | None => Ok ("No Ground reference available", 999%float)
  | Some g =>
      if dict_empty g then Ok ("No Ground reference available", 999%float)
      else
        let* amp_g := lat_amp g in
        let* ph_g := lat_phase g in
        let d := _ang_diff_deg ph_h ph_g in
        Ok ("Angle vs Ground: Δ=" +:+ Py.format_f 0 d +:+ "°", d)
  end.

Definition _detail_hover (runs : runset) (cfg : Config)
  : result (string * list string) :=
  let hover := _pick_state runs (sm_hover (state_map cfg)) in
  let gnd := _pick_state runs (sm_ground100 (state_map cfg)) in
  match hover with
  | None => Ok ("Hover (Decision)", ["No hover measurement."])
  | Some hover =>
      if dict_empty hover then Ok ("Hover (Decision)", ["No hover measurement."])
      else
        let* amp_h := lat_amp hover in
        let* ph_h := lat_phase hover in
        let limit := hover_ips_limit cfg in
        let ok := (amp_h <? limit)%float in
        let title := "Hover - Product Balance vs Roll" in
        let lines := [status_line ok; lat_line amp_h ph_h; limit_line limit] in
        if ok then Ok (title, _wrap (lines ++ ["No correction required."]))
        else
          let* ref := hover_reference ph_h gnd in
          let d := snd ref in
          let* decision :=
            if (d <=? 30)%float then
              let* grams := hub_grams amp_h (hub_weight_sensitivity_ips_per_100g cfg) in
              let corr_deg := correction_angle ph_h in
              let* g := num_int grams in
              let* clock := _deg_to_clock corr_deg in
              let* hint := _hub_split_hint corr_deg in
              Ok [ "Decision: MASS (Hub) - keep ground bal";
                   "Add HUB weight: ~" +:+ Py.str_of_int g +:+ " g";
                   "Place @ " +:+ clock;
                   hint ]
            else
              let* units := tip_units amp_h (product_weights_per_ips cfg) in
              let corr_deg := correction_angle ph_h in
              let* clock := _deg_to_clock corr_deg in
              Ok [ "Decision: AERO (Blade) - product bal";
                   "Add TIP weights: ~" +:+ Py.str_of_int units +:+ " units";
                   "Place @ " +:+ clock;
                   "NOTE: tip weights are ~11x hub effect";
                   "      and will affect ground balance" ] in
          Ok (title,
              _wrap (lines ++ [fst ref] ++ decision ++ ["Re-measure HOVER to validate."]))
  end.

(** [deg = amp / ips_per_deg if ips_per_deg > 0 else 0.0], then
    [max(0.2, _round_to(deg, 0.1))]. *)
Definition tab_degrees (amp ips_per_deg : float) : result num :=
  let* deg :=
    if (0 <? ips_per_deg)%float then Py.truediv amp ips_per_deg else Ok 0%float in
  let* r := _round_to deg (NFloat 0.1) in
  Ok (num_max (NFloat 0.2) r).

Definition _detail_120k (runs : runset) (cfg : Config) (option_120k : Z)
  : result (string * list string) :=
  match _pick_state runs (sm_kias120 (state_map cfg)) with
  | None => Ok ("120 KIAS (Vert)", ["No 120 KIAS measurement."])
  | Some m =>
      if dict_empty m then Ok ("120 KIAS (Vert)", ["No 120 KIAS measurement."])
      else
        let* amp := vert_amp m in
        let* ph := vert_phase m in
        let limit := kias120_vert_limit cfg in
        let ok := (amp <? limit)%float in
        let title := "120 KIAS - Vertical Smoother" in
        let lines :=
          [ status_line ok;
            "VRT 1R: " +:+ Py.format_f 3 amp +:+ " ips @ " +:+ Py.format_f 1 ph +:+ "°";
            limit_line limit ] in
        if ok then Ok (title, _wrap (lines ++ ["No correction required."]))
        else
          let* deg := tab_degrees amp (vertical_tab_ips_per_deg cfg) in
          let blade := _nearest_blade ph (blade_azimuth_deg cfg) in
          let opp_blade :=
            _nearest_blade (correction_angle ph) (blade_azimuth_deg cfg) in
          let* amount := num_format_f 1 deg in
          let choice :=
            if option_120k =? 1 then
              [ "Option 1 selected";
                "Bend OUTBD TAB of " +:+ blade +:+ " UP";
                "Amount: " +:+ amount +:+ "°" ]
            else
              [ "Option 2 selected";
                "Bend OUTBD TAB of " +:+ opp_blade +:+ " DOWN";
                "Amount: " +:+ amount +:+ "°" ] in
          Ok (title, _wrap (lines ++ choice ++ ["Re-measure 120K to validate."]))
  end.

(** ** Phasors and the letdown detail

    [math.cos], [math.sin] and the [hypot] behind [abs(complex)] come from
    the platform's C library; the engine is modelled over any three such
    functions. *)

Record complex : Set := mkComplex {
  re : float;
  im : float
}.

Definition c_add (a b : complex) : complex :=
  {| re := (re a + re b)%float; im := (im a + im b)%float |}.

(** The product of two complex numbers (CPython's [_Py_c_prod]). *)
Definition c_mul (a b : complex) : complex :=
  {| re := (re a * re b - im a * im b)%float;
     im := (re a * im b + im a * re b)%float |}.

(** [z * x] for a float [x], which is first made the complex [x + 0j]. *)
Definition c_scale (z : complex) (x : float) : complex :=
  c_mul z {| re := x; im := 0 |}.

(** [math.radians]. *)
Definition radians (deg : float) : float :=
  (deg * (3.141592653589793 / 180))%float.

Section Libm.

Variables libm_cos libm_sin : float -> float.
Variable libm_hypot : float -> float -> float.

(** How the [math] module wraps a one-argument C function that cannot
    overflow: a NaN out of a number, or an infinity out of a finite
    number, is a [ValueError]. *)
Definition math_1 (f : float -> float) (x : float) : result float :=
  let r := f x in
  if is_nan r && negb (is_nan x) then Raise ValueError
  else if is_infinity r && is_finite x then Raise ValueError
  else Ok r.

Definition _vec (amp ph_deg : float) : result complex :=
  let r := radians ph_deg in
  let* c := math_1 libm_cos r in
  let* s := math_1 libm_sin r in
  Ok {| re := (amp * c)%float; im := (amp * s)%float |}.

(** [abs(z)]. *)
Definition c_abs (z : complex) : result float :=
  if negb (is_finite (re z)) || negb (is_finite (im z)) then
    if is_infinity (re z) then Ok (abs (re z))
    else if is_infinity (im z) then Ok (abs (im z))
    else Ok nan
  else
    let r := libm_hypot (re z) (im z) in
    if is_finite r then Ok r else Raise OverflowError.

(** The safety check of the letdown detail against the ground record. *)
Definition letdown_safety (cfg : Config) (amp ph corr_deg : float)
    (grams_full : num) (gnd : option record) : result (list string) :=
  match gnd with
  | None => Ok []
  | Some g =>
      if dict_empty g then Ok []
      else
        let ground_limit := ground_ips_limit cfg in
        let* g_amp := lat_amp g in
        let* g_ph := lat_phase g in
        let* vg := _vec g_amp g_ph in
        let* c_full := _vec amp corr_deg in
        let* g_new := c_abs (c_add vg c_full) in
        let check :=
          [ "Check 100NR: predicted " +:+ Py.format_f 3 g_new +:+ " ips";
            "Ground limit: " +:+ Py.format_f 2 ground_limit +:+ " ips" ] in
        if (ground_limit <? g_new)%float then
          let* gf := num_float grams_full in
          let* grams_half := _round_to (gf * 0.5)%float (NInt 10) in
          let* g_half := c_abs (c_add vg (c_scale c_full 0.5)) in
          let* v := _vec amp ph in
          let* l_half := c_abs (c_add v (c_scale c_full 0.5)) in
          let* gh := num_int grams_half in
          Ok (check ++
              [ "Safety compromise triggered";
                "Use 50%: ~" +:+ Py.str_of_int gh +:+ " g";
                "Pred 100NR: " +:+ Py.format_f 3 g_half +:+ " ips";
                "Pred LET:  " +:+ Py.format_f 3 l_half +:+ " ips" ])
        else Ok check
  end.

Definition _detail_letdown (runs : runset) (cfg : Config)
  : result (string * list string) :=
  let m := _pick_state runs (sm_letdown (state_map cfg)) in
  let gnd := _pick_state runs (sm_ground100 (state_map cfg)) in
  match m with
  | None => Ok ("Letdown (Trim)", ["No letdown measurement."])
  | Some m =>
      if dict_empty m then Ok ("Letdown (Trim)", ["No letdown measurement."])
      else
        let* amp := lat_amp m in
        let* ph := lat_phase m in
        let limit := letdown_ips_limit cfg in
        let ok := (amp <? limit)%float in
        let title := "Letdown - Final Trim" in
        let lines := [status_line ok; lat_line amp ph; limit_line limit] in
        if ok then Ok (title, _wrap (lines ++ ["No correction required."]))
        else
          let corr_deg := correction_angle ph in
          let* grams_full :=
            hub_grams amp (hub_weight_sensitivity_ips_per_100g cfg) in
          let* g := num_int grams_full in
          let* clock := _deg_to_clock corr_deg in
          let* hint := _hub_split_hint corr_deg in
          let* safety := letdown_safety cfg amp ph corr_deg grams_full gnd in
          Ok (title,
              _wrap (lines ++
                     [ "Suggested HUB weight: ~" +:+ Py.str_of_int g +:+ " g";
                       "Place @ " +:+ clock;
                       hint ] ++ safety ++ ["Re-measure LETDOWN to validate."]))
  end.

(** ** The detail generator *)

(** [{s.step_id: s.status for s in summaries}.get(step_id)]: in a dict
    built from a list the last entry for a key stands. *)
Fixpoint status_of (summaries : list StepSummary) (id : string) : option status :=
  match summaries with
  | [] => None
  | s :: rest =>
      match status_of rest id with
      | Some st => Some st
      | None => if String.eqb (step_id s) id then Some (step_status s) else None
      end
  end.

Definition locked_title (id : string) : string :=
  if String.eqb id "track60" then "60% NR (Track)"
  else if String.eqb id "ground100" then "100% NR (Ground Bal)"
  else if String.eqb id "hover" then "Hover (Decision)"
  else if String.eqb id "kias120" then "120 KIAS (Vert)"
  else if String.eqb id "letdown" then "Letdown (Trim)"
  else "DIAGS".

Definition step_detail_for_bht412 (cfg : Config) (runs : runset) (id : string)
    (option_120k : Z) : result (string * list string) :=
  let* summaries := step_summaries_for_bht412 cfg runs in
  let st := match status_of summaries id with Some s => s | None => MISSING end in
  match st with
  | MISSING =>
      Ok (locked_title id,
          _wrap ["No measurement for this step."; "Go to MEASURE and run the regime."])
  | LOCKED =>
      Ok (locked_title id,
          _wrap ["LOCKED: complete previous steps"; "and re-measure until they are DONE."])
  | NEEDS | DONE =>
      if String.eqb id "track60" then _detail_track60 runs cfg
      else if String.eqb id "ground100" then _detail_ground100 runs cfg
      else if String.eqb id "hover" then _detail_hover runs cfg
      else if String.eqb id "kias120" then _detail_120k runs cfg option_120k
      else if String.eqb id "letdown" then _detail_letdown runs cfg
      else Ok ("DIAGS", ["Unknown step"])
  end.

(** The first step that is not DONE, or ["complete"]. *)
Fixpoint next_step_of (summaries : list StepSummary) : string :=
  match summaries with
  | [] => "complete"
  | s :: rest =>
      if status_eqb (step_status s) DONE then next_step_of rest else step_id s
  end.

Record Diagnosis : Set := mkDiagnosis {
  summaries : list StepSummary;
  next_step : string;
  detail : string * list string
}.

Definition diagnose_from_result (cfg : Config) (runs : runset) (option_120k : Z)
  : result Diagnosis :=
  let* ss := step_summaries_for_bht412 cfg runs in
  let next := next_step_of ss in
  let* d :=
    if String.eqb next "complete"
    then Ok ("DIAGS", _wrap ["All steps DONE."; "Rotor within training limits."])
    else step_detail_for_bht412 cfg runs next option_120k in
  Ok {| summaries := ss; next_step := next; detail := d |}.

End Libm.

(** ** Example data

    The repository's [config/bht412_mm.json] is not among the sources; the
    parameter set below has its shape, with the ground limit and hub
    sensitivity of the specification's scenarios, and serves the worked
    examples only. *)

Definition sample_state_map : StateMap :=
  {| sm_track60 := ["60NR"; "IDLE"];
     sm_ground100 := ["100NR"; "FPG"];
     sm_hover := ["HOVER"];
     sm_kias120 := ["120K"; "120KIAS"];
     sm_letdown := ["LETDOWN"; "LDN"; "DESCENT"] |}.

Definition sample_cfg : Config :=
  {| track_pair_tol_in := 0.1;
     sep_tol_in := 0.1;
     pair_separation_in := 1.75;
     pitch_link_flat_in := 0.05;
     ground_ips_limit := 0.15;
     hover_ips_limit := 0.15;
     kias120_vert_limit := 0.2;
     letdown_ips_limit := 0.15;
     hub_weight_sensitivity_ips_per_100g := 0.11;
     product_weights_per_ips := 20;
     vertical_tab_ips_per_deg := 0.1;
     blade_azimuth_deg := [("BLU", 0); ("ORG", 90); ("RED", 180); ("GRN", 270)]%float;
     state_map := sample_state_map |}.

(** A lateral-channel record: amplitude and phase. *)
Definition lat_record (amp ph : float) : record :=
  <["lat_1r_ips" := PNum amp]> (<["lat_1r_phase_deg" := PNum ph]> ∅).

(** A vertical-channel record. *)
Definition vert_record (amp ph : float) : record :=
  <["vert_1r_ips" := PNum amp]> (<["vert_1r_phase_deg" := PNum ph]> ∅).

(** A blade mapping and the track record that holds it: the four blade
    offsets in millimetres. *)
Definition blades (red blu org grn : float) : gmap string float :=
  <["RED" := red]> (<["BLU" := blu]> (<["ORG" := org]> (<["GRN" := grn]> ∅))).

Definition track_record (red blu org grn : float) : record :=
  <["track_rel_mm" := PDict (blades red blu org grn)]> ∅.

(** Blades on track: the pairs 1.75 in apart (44.45 mm). *)
Definition good_track : record := track_record 22 22 (-22) (-22.45).

(** Scenario 1 of the specification: ground run at 0.22 ips, 70 degrees. *)
Definition scenario1_runs : runset :=
  <["60NR" := good_track]> (<["100NR" := lat_record 0.22 70]> ∅).

(** Truncated power series, standing in for the C library's [cos] and
    [sin] in the worked examples (they agree with it to about fifteen
    digits on the angles used), and [hypot] through a square root. *)
Fixpoint series (n : nat) (k term acc x2 : float) : float :=
  match n with
  | O => acc
  | S n' =>
      let term' := (- term * x2 / ((k + 1) * (k + 2)))%float in
      series n' (k + 2)%float term' (acc + term')%float x2
  end.

Definition approx_cos (x : float) : float := series 30 0 1 1 (x * x)%float.

Definition approx_sin (x : float) : float := series 30 1 x x (x * x)%float.

Definition approx_hypot (x y : float) : float := sqrt (x * x + y * y)%float.

(** Scenario 4 of the specification: letdown at 0.18 ips, 30 degrees,
    over a ground run of 0.14 ips at 200 degrees; the full correction
    would push the ground amplitude over its limit. *)
Definition scenario4_runs : runset :=
  <["LETDOWN" := lat_record 0.18 30]> (<["100NR" := lat_record 0.14 200]> ∅).

(** ** Loading the parameter set *)

(** A parsed JSON document. *)
Inductive json : Type :=
| JNull
| JBool (b : bool)
| JNumber (n : num)
| JString (s : string)
| JArray (items : list json)
| JObject (members : list (string * json)).

(** The files the loader can reach: a path is mapped to what [json.load]
    makes of the file there, a document or the [ValueError] it raises on
    text that is not JSON; a path with no entry has no file. *)
Abbreviation filesystem := (gmap string (result json)).

(** [Path(__file__).resolve().parent.parent / "config" / "bht412_mm.json"],
    from the directory of the [rads] package. *)
Definition cfg_path (package_dir : string) : string :=
  package_dir +:+ "/config/bht412_mm.json".

Definition _load_cfg (package_dir : string) (fs : filesystem) : result json :=
  match fs !! cfg_path package_dir with
  | None => Raise OSError
  | Some parsed => parsed
  end.

(** [o.get(k)] on the members of a JSON object. *)
Fixpoint member (o : list (string * json)) (k : string) : option json :=
  match o with
  | [] => None
  | (k', v) :: rest => if String.eqb k' k then Some v else member rest k
  end.

(** The keys the engine reads with [cfg[...]]. *)
Definition required_keys : list string :=
  [ "track_pair_tol_in"; "sep_tol_in"; "pair_separation_in"; "pitch_link_flat_in";
    "ground_ips_limit"; "hover_ips_limit"; "kias120_vert_limit";
    "letdown_ips_limit"; "hub_weight_sensitivity_ips_per_100g";
    "product_weights_per_ips"; "vertical_tab_ips_per_deg"; "state_map" ].

(** The document has no value under [k]. *)
Definition lacks_key (doc : json) (k : string) : Prop :=
  match doc with
  | JObject o => member o k = None
  | _ => True
  end.

(** The example parameter set with another hub-weight sensitivity, and
    with another vertical-tab sensitivity. *)
Definition with_hub_sensitivity (cfg : Config) (x : float) : Config :=
  {| track_pair_tol_in := track_pair_tol_in cfg;
     sep_tol_in := sep_tol_in cfg;
     pair_separation_in := pair_separation_in cfg;
     pitch_link_flat_in := pitch_link_flat_in cfg;
     ground_ips_limit := ground_ips_limit cfg;
     hover_ips_limit := hover_ips_limit cfg;
     kias120_vert_limit := kias120_vert_limit cfg;
     letdown_ips_limit := letdown_ips_limit cfg;
     hub_weight_sensitivity_ips_per_100g := x;
     product_weights_per_ips := product_weights_per_ips cfg;
     vertical_tab_ips_per_deg := vertical_tab_ips_per_deg cfg;
     blade_azimuth_deg := blade_azimuth_deg cfg;
     state_map := state_map cfg |}.

Definition with_tab_sensitivity (cfg : Config) (x : float) : Config :=
  {| track_pair_tol_in := track_pair_tol_in cfg;
     sep_tol_in := sep_tol_in cfg;
     pair_separation_in := pair_separation_in cfg;
     pitch_link_flat_in := pitch_link_flat_in cfg;
     ground_ips_limit := ground_ips_limit cfg;
     hover_ips_limit := hover_ips_limit cfg;
     kias120_vert_limit := kias120_vert_limit cfg;
     letdown_ips_limit := letdown_ips_limit cfg;
     hub_weight_sensitivity_ips_per_100g := hub_weight_sensitivity_ips_per_100g cfg;
     product_weights_per_ips := product_weights_per_ips cfg;
     vertical_tab_ips_per_deg := x;
     blade_azimuth_deg := blade_azimuth_deg cfg;
     state_map := state_map cfg |}.

(** A ground record with a phase and no amplitude field. *)
Definition phase_only : record := <["lat_1r_phase_deg" := PNum 70]> ∅.

Definition phase_only_runs : runset := <["100NR" := phase_only]> ∅.

(** Blades off track: RED 8 mm under BLU, the pairs too close. *)
Definition bad_track_runs : runset :=
  <["60NR" := track_record 14 22 (-18) (-23)]> ∅.

(** Scenario 3 of the specification: hover at 0.25 ips, 170 degrees, over
    a ground phase of 20 degrees. *)
Definition scenario3_runs : runset :=
  <["HOVER" := lat_record 0.25 170]> (<["100NR" := lat_record 0.1 20]> ∅).

(** A 120 KIAS run at 0.30 ips, 220 degrees. *)
Definition kias120_runs : runset := <["120K" := vert_record 0.30 220]> ∅.


(** ** The vocabulary of the properties *)

(** [chain open l]: walking [l] in stage order, a stage is [LOCKED]
    exactly when the gate before it is shut, and the gate stays open only
    through [DONE] stages. *)
Fixpoint chain (open : bool) (l : list status) : Prop :=
  match l with
  | [] => True
  | s :: rest =>
      (if open then s <> LOCKED else s = LOCKED)
      /\ chain (open && status_eqb s DONE) rest
  end.

(** The value is JSON [null] or a zero. *)
Definition is_null (v : pyval) : Prop :=
  v = PNone \/ exists x, v = PNum x /\ (x =? 0)%float = true.

(** The channel is silent: the canonical field holds a null, or it is
    absent and the legacy field is absent too or holds a null. *)
Definition silent (m : record) (key legacy : string) : Prop :=
  match m !! key with
  | Some v => is_null v
  | None =>
      match m !! legacy with
      | Some v => is_null v
      | None => True
      end
  end.

(** The same for a channel with no legacy name. *)
Definition silent_plain (m : record) (key : string) : Prop :=
  match m !! key with
  | Some v => is_null v
  | None => True
  end.

(** The label of [r] half-hours past twelve. *)
Definition clock_label (r : Z) : string :=
  let h := (r / 2) mod 12 in
  Py.str_of_int (if h =? 0 then 12 else h)
    +:+ (if Z.even r then ":00" else ":30").

(** The two reports of a hover stage in need, after the reference line
    [ref]: hub weight (mass) and tip weights (aerodynamic). *)
Definition hover_mass_report (cfg : Config) (amp_h ph_h : float) (ref : string)
  : result (string * list string) :=
  let* q := Py.truediv amp_h (hub_weight_sensitivity_ips_per_100g cfg) in
  let* r := Py.round (q * 100 / 10)%float in
  let* clock := _deg_to_clock (Py.float_rem (ph_h + 180) 360) in
  let* hint := _hub_split_hint (Py.float_rem (ph_h + 180) 360) in
  Ok ("Hover - Product Balance vs Roll",
      _wrap [ "Status: NEEDS";
              "LAT 1R: " +:+ Py.format_f 3 amp_h +:+ " ips @ "
                +:+ Py.format_f 1 ph_h +:+ "°";
              "Limit : < " +:+ Py.format_f 2 (hover_ips_limit cfg) +:+ " ips";
              ref;
              "Decision: MASS (Hub) - keep ground bal";
              "Add HUB weight: ~" +:+ Py.str_of_int (r * 10) +:+ " g";
              "Place @ " +:+ clock;
              hint;
              "Re-measure HOVER to validate." ]).

Definition hover_aero_report (cfg : Config) (amp_h ph_h : float) (ref : string)
  : result (string * list string) :=
  let* r := Py.round (amp_h * product_weights_per_ips cfg)%float in
  let* clock := _deg_to_clock (Py.float_rem (ph_h + 180) 360) in
  Ok ("Hover - Product Balance vs Roll",
      _wrap [ "Status: NEEDS";
              "LAT 1R: " +:+ Py.format_f 3 amp_h +:+ " ips @ "
                +:+ Py.format_f 1 ph_h +:+ "°";
              "Limit : < " +:+ Py.format_f 2 (hover_ips_limit cfg) +:+ " ips";
              ref;
              "Decision: AERO (Blade) - product bal";
              "Add TIP weights: ~" +:+ Py.str_of_int (Z.max 1 r) +:+ " units";
              "Place @ " +:+ clock;
              "NOTE: tip weights are ~11x hub effect";
              "      and will affect ground balance";
              "Re-measure HOVER to validate." ]).

(** The field is a number, a null, or absent. *)
Definition scalar_field (m : record) (k : string) : Prop :=
  match m !! k with
  | Some (PDict _) => False
  | _ => True
  end.

(** A measurement record as the data model has it: the blade mapping is
    a mapping (or absent, or null) and the six channel fields are numbers
    (or absent, or null). *)
Definition well_typed (m : record) : Prop :=
  match m !! "track_rel_mm" with
  | Some (PNum _) => False
  | _ => True
  end
  /\ scalar_field m "lat_1r_ips" /\ scalar_field m "vib_1r_ips"
  /\ scalar_field m "lat_1r_phase_deg" /\ scalar_field m "vib_1r_phase_deg"
  /\ scalar_field m "vert_1r_ips" /\ scalar_field m "vert_1r_phase_deg".

(** A run set of such records. *)
Definition well_typed_runs (runs : runset) : Prop :=
  forall name m, runs !! name = Some m -> well_typed m.

(** The five stage ids, and the two fixed texts of the detail generator. *)
Definition known_step (id : string) : Prop :=
  id = "track60" \/ id = "ground100" \/ id = "hover" \/ id = "kias120"
  \/ id = "letdown".

Definition missing_message : list string :=
  ["No measurement for this step."; "Go to MEASURE and run the regime."].

Definition locked_message : list string :=
  ["LOCKED: complete previous steps"; "and re-measure until they are DONE."].

(** The four lines of the 50% compromise. *)
Definition compromise_lines (libm_cos libm_sin : float -> float)
    (libm_hypot : float -> float -> float) (amp ph : float) (grams_full : Z)
    (vg c_full : complex)
  : result (list string) :=
  let* gf := Py.float_of_int grams_full in
  let* rh := Py.round (gf * 0.5 / 10)%float in
  let* g_half := c_abs libm_hypot (c_add vg (c_scale c_full 0.5)) in
  let* v := _vec libm_cos libm_sin amp ph in
  let* l_half := c_abs libm_hypot (c_add v (c_scale c_full 0.5)) in
  Ok [ "Safety compromise triggered";
       "Use 50%: ~" +:+ Py.str_of_int (rh * 10) +:+ " g";
       "Pred 100NR: " +:+ Py.format_f 3 g_half +:+ " ips";
       "Pred LET:  " +:+ Py.format_f 3 l_half +:+ " ips" ].

(** What [take_continuation] splits off has no code point of its own, and
    what it leaves does not start inside one. *)
Definition starts_clean (s : string) : Prop :=
  match s with
  | EmptyString => True
  | String c _ => Py.is_continuation c = false
  end.

Definition join (pieces : list string) : string :=
  fold_right String.append EmptyString pieces.

(** The blade pair between which a hub weight at clock hour [h] is
    split. *)
Definition sector (h : Z) : string :=
  if (h =? 11) || (h =? 12) || (h =? 1) then "Split nearest: GRN/ORG"
  else if (h =? 2) || (h =? 3) || (h =? 4) then "Split nearest: RED/BLU"
  else if (h =? 5) || (h =? 6) || (h =? 7) then "Split nearest: BLU/ORG"
  else "Split nearest: GRN/RED".

(** The diagnosis of scenario 1, with the series standing in for the C
    library. *)
Definition scenario1_diagnosis : Diagnosis :=
  Eval vm_compute in
    match diagnose_from_result approx_cos approx_sin approx_hypot sample_cfg
            scenario1_runs 1 with
    | Ok d => d
    | Raise _ => mkDiagnosis [] "" ("", [])
    end.

(** ** The DIAGS menu: [rads/menus/diags.py]

    The menu has a loader, a flight selector and a warnings list of its
    own, on top of the engine. *)

Module Diags.

(** The two fields of [RADSState] the flight selector reads:
    [measurements[flight_id][test_state]] is one run. *)
Record RADSState : Type := mkRADSState {
  flight_id : string;
  measurements : gmap string runset
}.

(** The menu's loader keeps what it has read in the module variable
    [_CFG], [None] at first; it is threaded through here.  Python's
    [None] is what [json.loads] makes of [null], so a document [null] is
    read again at the next call. *)
Definition _load_cfg (_CFG : json) (package_dir : string) (fs : filesystem)
  : result json * json :=
  match _CFG with
  | JNull =>
      match fs !! cfg_path package_dir with
      | None => (Raise OSError, _CFG)
      | Some (Raise e) => (Raise e, _CFG)
      | Some (Ok doc) => (Ok doc, doc)
      end
  | _ => (Ok _CFG, _CFG)
  end.

(** Calls of the loader one after the other, each in the file system of
    its moment. *)
Fixpoint loads (_CFG : json) (package_dir : string) (fss : list filesystem)
  : list (result json) :=
  match fss with
  | [] => []
  | fs :: rest =>
      let r := _load_cfg _CFG package_dir fs in
      fst r :: loads (snd r) package_dir rest
  end.

(** [sorted(keys)]: strings are ordered by code point, which on UTF-8 is
    the order of the bytes. *)
Definition str_le (a b : string) : Prop := String.leb a b = true.

#[global] Instance str_le_dec : RelDecision str_le :=
  fun a b => decide (String.leb a b = true).

Definition sorted (keys : list string) : list string :=
  merge_sort str_le keys.

Definition keys {A : Type} (d : gmap string A) : list string :=
  map fst (map_to_list d).

(** [d.get(k, {}) or {}]. *)
Definition get_or_empty (d : gmap string runset) (k : string) : runset :=
  default ∅ (d !! k).

(** Under [if sim.measurements] the sorted keys have a last element. *)
Definition _active_runs (sim : RADSState) : string * runset :=
  if negb (String.eqb (flight_id sim) "")
     && bool_decide (is_Some (measurements sim !! flight_id sim))
  then (flight_id sim, get_or_empty (measurements sim) (flight_id sim))
  else if negb (dict_empty (measurements sim)) then
    let fid := default "" (last (sorted (keys (measurements sim)))) in
    (fid, get_or_empty (measurements sim) fid)
  else ("", ∅).

Definition _warnings (cfg : Config) (sim : RADSState) : result (list string) :=
  let runs := snd (_active_runs sim) in
  if dict_empty runs then Ok ["No measurements available."]
  else
    let* steps := step_summaries_for_bht412 cfg runs in
    let warn :=
      fold_left
        (fun warn s =>
           if status_eqb (step_status s) NEEDS
           then warn ++ [label s +:+ ": OUT OF LIMIT"]
           else if status_eqb (step_status s) MISSING
                   || status_eqb (step_status s) LOCKED
           then warn ++ [label s +:+ ": INCOMPLETE"]
           else warn)
        steps [] in
    Ok (match warn with
        | [] => ["All measurements within limits"]
        | _ :: _ => warn
        end).

End Diags.

(** A device with one flight, the runs of scenario 1. *)
Definition scenario1_device : Diags.RADSState :=
  Diags.mkRADSState "F1" {[ "F1" := scenario1_runs ]}.

(** What the warnings list says of one stage. *)
Definition warning_of (s : StepSummary) : list string :=
  match step_status s with
  | NEEDS => [label s +:+ ": OUT OF LIMIT"]
  | MISSING | LOCKED => [label s +:+ ": INCOMPLETE"]
  | DONE => []
  end.

Definition incomplete (s : StepSummary) : string := label s +:+ ": INCOMPLETE".

(** The parameter file as the first call finds it, and two later states
    of the disk: the file removed, the file no longer JSON. *)
Definition first_files : filesystem :=
  {[ cfg_path "rads" := Ok (JObject [("ground_ips_limit", JNumber (NFloat 0.15))]) ]}.

Definition garbled_files : filesystem :=
  {[ cfg_path "rads" := Raise ValueError ]}.


(** * Properties *)

(** ** The gating chain *)

Lemma status_eqb_eq (a b : status) : status_eqb a b = true <-> a = b.
Proof. destruct a, b; simpl; split; congruence. Qed.

Lemma status_eqb_neq (a b : status) : status_eqb a b = false <-> a <> b.
Proof. destruct a, b; simpl; split; congruence. Qed.

Lemma chain_shut_locked (l : list status) (j : nat) (s : status) :
  chain false l -> l !! j = Some s -> s = LOCKED.
Proof.
  revert j. induction l as [|a l IH]; intros j Hc Hj.
  - discriminate.
  - destruct Hc as [Ha Hrest]. destruct j as [|j]; simpl in Hj.
    + congruence.
    + exact (IH j Hrest Hj).
Qed.

Lemma chain_order (open : bool) (l : list status) (i j : nat) (si sj : status) :
  chain open l -> (i < j)%nat ->
  l !! i = Some si -> l !! j = Some sj -> si <> DONE -> sj = LOCKED.
Proof.
  revert open i j. induction l as [|a l IH]; intros open i j Hc Hij Hi Hj Hsi.
  - discriminate.
  - destruct Hc as [_ Hrest]. destruct j as [|j]; [lia|].
    destruct i as [|i]; simpl in Hi, Hj.
    + injection Hi as ->.
      apply status_eqb_neq in Hsi. rewrite Hsi, andb_false_r in Hrest.
      exact (chain_shut_locked l j sj Hrest Hj).
    + apply (IH _ i j Hrest); [lia|assumption..].
Qed.

Lemma chain_locked_iff (open : bool) (l : list status) (j : nat) (sj : status) :
  chain open l -> l !! j = Some sj ->
  (sj = LOCKED <->
   open = false \/ exists i si, (i < j)%nat /\ l !! i = Some si /\ si <> DONE).
Proof.
  revert open j. induction l as [|a l IH]; intros open j Hc Hj.
  - discriminate.
  - destruct Hc as [Ha Hrest]. destruct j as [|j]; simpl in Hj.
    + injection Hj as ->. split.
      * intros ->. destruct open; [congruence|now left].
      * intros [->|(i & si & Hlt & _)]; [assumption|lia].
    + rewrite (IH _ j Hrest Hj). split.
      * intros [Hshut|(i & si & Hlt & Hi & Hsi)].
        -- apply andb_false_iff in Hshut as [->|Ha'].
           ++ now left.
           ++ right. exists 0%nat, a. apply status_eqb_neq in Ha'.
              split; [lia|]. split; [reflexivity|assumption].
        -- right. exists (S i), si. split; [lia|]. split; assumption.
      * intros [->|(i & si & Hlt & Hi & Hsi)].
        -- now left.
        -- destruct i as [|i]; simpl in Hi.
           ++ injection Hi as ->. left. apply status_eqb_neq in Hsi.
              rewrite Hsi. apply andb_false_r.
           ++ right. exists i, si. split; [lia|]. split; assumption.
Qed.

(** What each status function may return, given its gate. *)
Lemma _status_track60_open (runs : runset) (cfg : Config) (s : status) :
  _status_track60 runs cfg = Ok s -> s <> LOCKED.
Proof.
  unfold _status_track60.
  destruct (_pick_state runs _) as [m|]; [|congruence].
  destruct (dict_empty m); [congruence|].
  destruct (_track_checks m cfg) as [[[] info]|e]; simpl; congruence.
Qed.

Lemma limit_status_open (amp limit : float) : limit_status amp limit <> LOCKED.
Proof. unfold limit_status. destruct (_ <? _)%float; congruence. Qed.

Ltac gate_cases H :=
  match type of H with
  | context [_pick_state ?r ?c] =>
      destruct (_pick_state r c) as [?m|]; [|congruence]
  end;
  match type of H with
  | context [dict_empty ?m] => destruct (dict_empty m); [congruence|]
  end;
  match type of H with
  | context [bind ?r _] => destruct r as [?amp|?e]; simpl in H; [|congruence]
  end;
  injection H as <-; apply limit_status_open.

Lemma gated_status (f : runset -> Config -> bool -> result status)
    (runs : runset) (cfg : Config) (prev_ok : bool) (s : status) :
  f = _status_ground100 \/ f = _status_hover \/ f = _status_120k
    \/ f = _status_letdown ->
  f runs cfg prev_ok = Ok s ->
  if prev_ok then s <> LOCKED else s = LOCKED.
Proof.
  intros Hf H. destruct prev_ok.
  - destruct Hf as [-> | [-> | [-> | ->]]];
      unfold _status_ground100, _status_hover, _status_120k, _status_letdown in H;
      simpl in H; gate_cases H.
  - destruct Hf as [-> | [-> | [-> | ->]]];
      unfold _status_ground100, _status_hover, _status_120k, _status_letdown in H;
      simpl in H; congruence.
Qed.

Lemma summaries_chain (cfg : Config) (runs : runset) (l : list StepSummary) :
  step_summaries_for_bht412 cfg runs = Ok l ->
  map step_id l = ["track60"; "ground100"; "hover"; "kias120"; "letdown"]
  /\ chain true (map step_status l).
Proof.
  unfold step_summaries_for_bht412. intros H.
  destruct (_status_track60 runs cfg) as [s1|] eqn:H1; [|discriminate].
  simpl in H.
  destruct (_status_ground100 runs cfg _) as [s2|] eqn:H2; [|discriminate].
  simpl in H.
  destruct (_status_hover runs cfg _) as [s3|] eqn:H3; [|discriminate].
  simpl in H.
  destruct (_status_120k runs cfg _) as [s4|] eqn:H4; [|discriminate].
  simpl in H.
  destruct (_status_letdown runs cfg _) as [s5|] eqn:H5; [|discriminate].
  simpl in H. injection H as <-. split; [reflexivity|].
  apply _status_track60_open in H1.
  apply (gated_status _status_ground100) in H2; [|tauto].
  apply (gated_status _status_hover) in H3; [|tauto].
  apply (gated_status _status_120k) in H4; [|tauto].
  apply (gated_status _status_letdown) in H5; [|tauto].
  simpl. repeat split; assumption.
Qed.

(** C1. The evaluator's five summaries come in the fixed stage order
    track60, ground100, hover, kias120, letdown, and their statuses are
    gated: a stage that is not DONE leaves every later stage LOCKED; a
    stage is LOCKED exactly when some earlier stage is not DONE; and
    track60, which has no predecessor, is never LOCKED. *)
Theorem summaries_respect_order (cfg : Config) (runs : runset)
    (l : list StepSummary) :
  step_summaries_for_bht412 cfg runs = Ok l ->
  map step_id l = ["track60"; "ground100"; "hover"; "kias120"; "letdown"]
  /\ (forall i j si sj, (i < j)%nat ->
        map step_status l !! i = Some si ->
        map step_status l !! j = Some sj ->
        si <> DONE -> sj = LOCKED)
  /\ (forall j sj, map step_status l !! j = Some sj ->
        (sj = LOCKED <->
         exists i si, (i < j)%nat /\ map step_status l !! i = Some si
                      /\ si <> DONE))
  /\ (forall s, map step_status l !! 0%nat = Some s -> s <> LOCKED).
Proof.
  intros H. destruct (summaries_chain cfg runs l H) as [Hids Hc].
  split; [exact Hids|]. split; [|split].
  - intros i j si sj. apply (chain_order true); exact Hc.
  - intros j sj Hj. rewrite (chain_locked_iff true _ j sj Hc Hj).
    split; [intros [?|?]; [discriminate|assumption]|now right].
  - intros s Hs. destruct (map step_status l) as [|a rest]; [discriminate|].
    injection Hs as ->. exact (proj1 Hc).
Qed.

(** ** The track test at 60% NR *)

(** C2. When a track60 record resolves (a name of the stage's alias list
    is in the run set and its record is not empty) and holds a blade
    mapping, the stage is DONE exactly when the three tolerance tests on
    the heights in inches pass together, and it is NEEDS as soon as one of
    the three quantities is over its tolerance. *)
Theorem track60_done_iff_three_checks (cfg : Config) (runs : runset)
    (m : record) (track : gmap string float) :
  _pick_state runs (sm_track60 (state_map cfg)) = Some m ->
  dict_empty m = false ->
  track_of m = Ok track ->
  let red := height_in track "RED" in
  let blu := height_in track "BLU" in
  let org := height_in track "ORG" in
  let grn := height_in track "GRN" in
  let rb_ok := (abs (red - blu) <=? track_pair_tol_in cfg)%float in
  let og_ok := (abs (org - grn) <=? track_pair_tol_in cfg)%float in
  let sep_ok :=
    (abs (((red + blu) / 2 - (org + grn) / 2) - pair_separation_in cfg)
       <=? sep_tol_in cfg)%float in
  (_status_track60 runs cfg = Ok DONE <->
   rb_ok = true /\ og_ok = true /\ sep_ok = true)
  /\ (rb_ok = false \/ og_ok = false \/ sep_ok = false ->
      _status_track60 runs cfg = Ok NEEDS).
Proof.
  intros Hpick Hne Htrack red blu org grn rb_ok og_ok sep_ok.
  assert (Hst : _status_track60 runs cfg
                = Ok (if rb_ok && og_ok && sep_ok then DONE else NEEDS)).
  { unfold _status_track60, _track_checks. rewrite Hpick, Hne, Htrack.
    reflexivity. }
  rewrite Hst. split.
  - destruct rb_ok, og_ok, sep_ok; simpl; split; intros H;
      try discriminate; try tauto; destruct H as (? & ? & ?); discriminate.
  - intros H. destruct rb_ok, og_ok, sep_ok; simpl; try reflexivity.
    destruct H as [H|[H|H]]; discriminate.
Qed.

(** ** An absent or null amplitude *)

Lemma is_null_or (v : pyval) : is_null v -> py_or v (PNum 0) = PNum 0.
Proof.
  intros [->|(x & -> & Hx)]; unfold py_or; simpl; [reflexivity|].
  now rewrite Hx.
Qed.

Lemma silent_amp (m : record) (key legacy : string) :
  silent m key legacy -> get_aliased m key legacy = Ok 0%float.
Proof.
  unfold silent, get_aliased, dict_get. intros H.
  destruct (m !! key) as [v|].
  - now rewrite (is_null_or v H).
  - destruct (m !! legacy) as [v|]; [now rewrite (is_null_or v H)|reflexivity].
Qed.

Lemma silent_plain_amp (m : record) (key : string) :
  silent_plain m key -> get_plain m key = Ok 0%float.
Proof.
  unfold silent_plain, get_plain, dict_get. intros H.
  destruct (m !! key) as [v|]; [now rewrite (is_null_or v H)|reflexivity].
Qed.

(** C10. In a stage after track60 whose gate is open and whose record
    resolves (found under an alias and not empty), an amplitude channel
    that is absent or null reads as 0.0, and the stage is DONE whenever
    its limit is positive. *)
Theorem silent_channel_passes (cfg : Config) (runs : runset) (m : record) :
  dict_empty m = false ->
  (_pick_state runs (sm_ground100 (state_map cfg)) = Some m ->
   silent m "lat_1r_ips" "vib_1r_ips" ->
   lat_amp m = Ok 0%float
   /\ ((0 <? ground_ips_limit cfg)%float = true ->
       _status_ground100 runs cfg true = Ok DONE))
  /\ (_pick_state runs (sm_hover (state_map cfg)) = Some m ->
      silent m "lat_1r_ips" "vib_1r_ips" ->
      lat_amp m = Ok 0%float
      /\ ((0 <? hover_ips_limit cfg)%float = true ->
          _status_hover runs cfg true = Ok DONE))
  /\ (_pick_state runs (sm_kias120 (state_map cfg)) = Some m ->
      silent_plain m "vert_1r_ips" ->
      vert_amp m = Ok 0%float
      /\ ((0 <? kias120_vert_limit cfg)%float = true ->
          _status_120k runs cfg true = Ok DONE))
  /\ (_pick_state runs (sm_letdown (state_map cfg)) = Some m ->
      silent m "lat_1r_ips" "vib_1r_ips" ->
      lat_amp m = Ok 0%float
      /\ ((0 <? letdown_ips_limit cfg)%float = true ->
          _status_letdown runs cfg true = Ok DONE)).
Proof.
  intros Hne.
  repeat split; try (now apply silent_amp); try (now apply silent_plain_amp);
    intros Hlim;
    unfold _status_ground100, _status_hover, _status_120k, _status_letdown;
    simpl; rewrite H, Hne;
    first [ unfold lat_amp; rewrite (silent_amp m _ _ H0)
          | unfold vert_amp; rewrite (silent_plain_amp m _ H0) ];
    simpl; unfold limit_status; now rewrite Hlim.
Qed.

(** ** Hub weight, correction angle and clock label *)

Lemma bind_ok {A B : Type} (r : result A) (k : A -> result B) (a : A) :
  r = Ok a -> bind r k = k a.
Proof. now intros ->. Qed.

(** Rounding to the nearest 10 with an int step: [round(x / 10) * 10],
    an int. *)
Lemma _round_to_10 (x : float) :
  _round_to x (NInt 10) = let* r := Py.round (x / 10)%float in Ok (NInt (r * 10)).
Proof. reflexivity. Qed.

(** Rounding to the nearest 0.1 with a float step. *)
Lemma _round_to_tenth (x : float) :
  _round_to x (NFloat 0.1) =
  let* r := Py.round (x / 0.1)%float in
  let* fr := Py.float_of_int r in
  Ok (NFloat (fr * 0.1)%float).
Proof. reflexivity. Qed.

Lemma hub_grams_formula (amp sens : float) :
  hub_grams amp sens =
  let* q := Py.truediv amp sens in
  let* r := Py.round (q * 100 / 10)%float in
  Ok (NInt (r * 10)).
Proof. reflexivity. Qed.

Lemma _deg_to_clock_hours (deg : float) (lbl : string) :
  _deg_to_clock deg = Ok lbl ->
  exists h, 1 <= h <= 12
    /\ (lbl = Py.str_of_int h +:+ ":00" \/ lbl = Py.str_of_int h +:+ ":30").
Proof.
  unfold _deg_to_clock. intros H.
  destruct (Py.round _) as [r|]; [simpl in H|discriminate].
  destruct (Py.float_of_int r) as [fr|]; [simpl in H|discriminate].
  destruct (Py.int _) as [ih|]; [simpl in H|discriminate].
  destruct (Py.float_of_int ih) as [fih|]; [simpl in H|discriminate].
  exists (if ih mod 12 =? 0 then 12 else ih mod 12). split.
  - pose proof (Z.mod_pos_bound ih 12 ltac:(lia)) as Hb.
    destruct (ih mod 12 =? 0) eqn:E; [lia|]. apply Z.eqb_neq in E. lia.
  - destruct (_ <? _)%float; injection H as <-; [now left|now right].
Qed.

Lemma _deg_to_clock_half_hours (deg : float) (r : Z) :
  Py.round (Py.float_rem deg 360 / 30 * 2)%float = Ok r ->
  0 <= r <= 24 ->
  _deg_to_clock deg = Ok (clock_label r).
Proof.
  intros Hr Hb. unfold _deg_to_clock. rewrite Hr. simpl.
  assert (Hcases : r = 0 \/ r = 1 \/ r = 2 \/ r = 3 \/ r = 4 \/ r = 5 \/ r = 6
                   \/ r = 7 \/ r = 8 \/ r = 9 \/ r = 10 \/ r = 11 \/ r = 12
                   \/ r = 13 \/ r = 14 \/ r = 15 \/ r = 16 \/ r = 17 \/ r = 18
                   \/ r = 19 \/ r = 20 \/ r = 21 \/ r = 22 \/ r = 23 \/ r = 24)
    by lia.
  repeat (destruct Hcases as [->|Hcases]; [vm_compute; reflexivity|]).
  subst r. vm_compute. reflexivity.
Qed.

Lemma _status_ground100_needs (cfg : Config) (runs : runset) (m : record)
    (amp : float) :
  _pick_state runs (sm_ground100 (state_map cfg)) = Some m ->
  dict_empty m = false ->
  lat_amp m = Ok amp ->
  _status_ground100 runs cfg true = Ok (limit_status amp (ground_ips_limit cfg)).
Proof.
  intros Hpick Hne Hamp. unfold _status_ground100. simpl.
  now rewrite Hpick, Hne, Hamp.
Qed.

Lemma _detail_ground100_needs (cfg : Config) (runs : runset) (m : record)
    (amp ph : float) :
  _pick_state runs (sm_ground100 (state_map cfg)) = Some m ->
  dict_empty m = false ->
  lat_amp m = Ok amp ->
  lat_phase m = Ok ph ->
  (amp <? ground_ips_limit cfg)%float = false ->
  _detail_ground100 runs cfg =
  (let* q := Py.truediv amp (hub_weight_sensitivity_ips_per_100g cfg) in
   let* r := Py.round (q * 100 / 10)%float in
   let* clock := _deg_to_clock (Py.float_rem (ph + 180) 360) in
   let* hint := _hub_split_hint (Py.float_rem (ph + 180) 360) in
   Ok ("100% NR - Ground Mass Balance",
       _wrap [ "Status: NEEDS";
               "LAT 1R: " +:+ Py.format_f 3 amp +:+ " ips @ "
                 +:+ Py.format_f 1 ph +:+ "°";
               "Limit : < " +:+ Py.format_f 2 (ground_ips_limit cfg) +:+ " ips";
               "Add HUB weight: ~" +:+ Py.str_of_int (r * 10) +:+ " g";
               "Place @ " +:+ clock +:+ " (180° from peak)";
               hint;
               "Re-measure 100NR to validate." ])).
Proof.
  intros Hpick Hne Hamp Hph Hlim. unfold _detail_ground100.
  rewrite Hpick, Hne, Hamp. simpl. rewrite Hph. simpl. rewrite Hlim.
  rewrite hub_grams_formula. unfold correction_angle.
  destruct (Py.truediv amp _) as [q|]; [simpl|reflexivity].
  destruct (Py.round _) as [r|]; [simpl|reflexivity].
  destruct (_deg_to_clock _) as [clock|]; [simpl|reflexivity].
  destruct (_hub_split_hint _) as [hint|]; reflexivity.
Qed.

(** C3. A ground100 record whose lateral amplitude is not under the
    ground limit is NEEDS, and its detail reports: hub-weight grams
    [round((amp / sens) * 100 / 10) * 10]; the correction angle
    [(phase + 180) mod 360]; and that angle's clock label, whose hour is
    in 1..12, which is the label of the rounded number of half-hours
    [round(angle / 30 * 2)], and which is 12:00 at 0 degrees and 1:00 at
    30.  With 0.22 ips at 70 degrees, limit 0.15 and sensitivity 0.11
    this gives 200 g at 250 degrees, 8:30. *)
Theorem ground100_hub_weight_and_clock (cfg : Config) (runs : runset)
    (m : record) (amp ph : float) :
  _pick_state runs (sm_ground100 (state_map cfg)) = Some m ->
  dict_empty m = false ->
  lat_amp m = Ok amp ->
  lat_phase m = Ok ph ->
  (amp <? ground_ips_limit cfg)%float = false ->
  let sens := hub_weight_sensitivity_ips_per_100g cfg in
  let corr := Py.float_rem (ph + 180) 360 in
  _status_ground100 runs cfg true = Ok NEEDS
  /\ _detail_ground100 runs cfg =
     (let* q := Py.truediv amp sens in
      let* r := Py.round (q * 100 / 10)%float in
      let* clock := _deg_to_clock corr in
      let* hint := _hub_split_hint corr in
      Ok ("100% NR - Ground Mass Balance",
          _wrap [ "Status: NEEDS";
                  "LAT 1R: " +:+ Py.format_f 3 amp +:+ " ips @ "
                    +:+ Py.format_f 1 ph +:+ "°";
                  "Limit : < " +:+ Py.format_f 2 (ground_ips_limit cfg) +:+ " ips";
                  "Add HUB weight: ~" +:+ Py.str_of_int (r * 10) +:+ " g";
                  "Place @ " +:+ clock +:+ " (180° from peak)";
                  hint;
                  "Re-measure 100NR to validate." ]))
  /\ (forall lbl, _deg_to_clock corr = Ok lbl ->
        exists h, 1 <= h <= 12
          /\ (lbl = Py.str_of_int h +:+ ":00" \/ lbl = Py.str_of_int h +:+ ":30"))
  /\ (forall r, Py.round (Py.float_rem corr 360 / 30 * 2)%float = Ok r ->
        0 <= r <= 24 -> _deg_to_clock corr = Ok (clock_label r))
  /\ _deg_to_clock 0 = Ok "12:00"
  /\ _deg_to_clock 30 = Ok "1:00"
  /\ (amp = 0.22%float -> ph = 70%float -> sens = 0.11%float ->
      ground_ips_limit cfg = 0.15%float ->
      corr = 250%float
      /\ _detail_ground100 runs cfg =
         Ok ("100% NR - Ground Mass Balance",
             [ "Status: NEEDS";
               "LAT 1R: 0.220 ips @ 70.0°";
               "Limit : < 0.15 ips";
               "Add HUB weight: ~200 g";
               "Place @ 8:30 (180° from peak)";
               "Split nearest: GRN/RED";
               "Re-measure 100NR to validate." ])).
Proof.
  intros Hpick Hne Hamp Hph Hlim sens corr.
  pose proof (_detail_ground100_needs cfg runs m amp ph Hpick Hne Hamp Hph Hlim)
    as Hdetail.
  split.
  { rewrite (_status_ground100_needs cfg runs m amp Hpick Hne Hamp).
    unfold limit_status. now rewrite Hlim. }
  split; [exact Hdetail|].
  split; [intros lbl; apply _deg_to_clock_hours|].
  split; [intros r; apply _deg_to_clock_half_hours|].
  split; [reflexivity|]. split; [reflexivity|].
  intros -> -> Hsens Hlimit. split; [reflexivity|].
  rewrite Hdetail. fold sens. rewrite Hsens, Hlimit. reflexivity.
Qed.

(** The worked example of C3: scenario 1 on the example parameter set. *)
Lemma ground100_hub_weight_and_clock_witness :
  _status_ground100 scenario1_runs sample_cfg true = Ok NEEDS
  /\ _detail_ground100 scenario1_runs sample_cfg =
     Ok ("100% NR - Ground Mass Balance",
         [ "Status: NEEDS";
           "LAT 1R: 0.220 ips @ 70.0°";
           "Limit : < 0.15 ips";
           "Add HUB weight: ~200 g";
           "Place @ 8:30 (180° from peak)";
           "Split nearest: GRN/RED";
           "Re-measure 100NR to validate." ]).
Proof.
  destruct (ground100_hub_weight_and_clock sample_cfg scenario1_runs
              (lat_record 0.22 70) 0.22 70
              ltac:(reflexivity) ltac:(reflexivity) ltac:(reflexivity)
              ltac:(reflexivity) ltac:(reflexivity))
    as (Hst & _ & _ & _ & _ & _ & Hscn).
  split; [exact Hst|].
  exact (proj2 (Hscn eq_refl eq_refl eq_refl eq_refl)).
Defined.

(** ** The hover decision *)

Lemma _detail_hover_needs (cfg : Config) (runs : runset) (hover : record)
    (amp_h ph_h : float) :
  _pick_state runs (sm_hover (state_map cfg)) = Some hover ->
  dict_empty hover = false ->
  lat_amp hover = Ok amp_h ->
  lat_phase hover = Ok ph_h ->
  (amp_h <? hover_ips_limit cfg)%float = false ->
  _detail_hover runs cfg =
  (let* ref := hover_reference ph_h
                 (_pick_state runs (sm_ground100 (state_map cfg))) in
   if (snd ref <=? 30)%float
   then hover_mass_report cfg amp_h ph_h (fst ref)
   else hover_aero_report cfg amp_h ph_h (fst ref)).
Proof.
  intros Hpick Hne Hamp Hph Hlim. unfold _detail_hover.
  rewrite Hpick, Hne, Hamp. simpl. rewrite Hph. simpl. rewrite Hlim.
  destruct (hover_reference ph_h _) as [[ref d]|]; [simpl|reflexivity].
  destruct (d <=? 30)%float.
  - unfold hover_mass_report. rewrite hub_grams_formula. unfold correction_angle.
    destruct (Py.truediv amp_h _) as [q|]; [simpl|reflexivity].
    destruct (Py.round _) as [r|]; [simpl|reflexivity].
    destruct (_deg_to_clock _) as [clock|]; [simpl|reflexivity].
    destruct (_hub_split_hint _) as [hint|]; reflexivity.
  - unfold hover_aero_report, tip_units, correction_angle.
    destruct (Py.round _) as [r|]; [simpl|reflexivity].
    destruct (_deg_to_clock _) as [clock|]; reflexivity.
Qed.

(** C4. A hover record whose lateral amplitude is not under the hover
    limit is NEEDS.  With a ground100 record, [d] is the circular
    difference between the two phases ([(a - b) mod 360], turned into
    [360 - d] past 180): at [d <= 30] the detail reports the hub-weight
    grams of the ground100 formula on the hover amplitude, past 30 the
    tip-weight units [max(1, round(amp * product_weights_per_ips))].
    With no ground100 record the difference counts as 999 and the
    tip-weight report is given. *)
Theorem hover_mass_or_aero (cfg : Config) (runs : runset) (hover : record)
    (amp_h ph_h : float) :
  _pick_state runs (sm_hover (state_map cfg)) = Some hover ->
  dict_empty hover = false ->
  lat_amp hover = Ok amp_h ->
  lat_phase hover = Ok ph_h ->
  (amp_h <? hover_ips_limit cfg)%float = false ->
  _status_hover runs cfg true = Ok NEEDS
  /\ (forall g amp_g ph_g,
        _pick_state runs (sm_ground100 (state_map cfg)) = Some g ->
        dict_empty g = false ->
        lat_amp g = Ok amp_g ->
        lat_phase g = Ok ph_g ->
        let d := _ang_diff_deg ph_h ph_g in
        let ref := "Angle vs Ground: Δ=" +:+ Py.format_f 0 d +:+ "°" in
        _detail_hover runs cfg =
        if (d <=? 30)%float
        then hover_mass_report cfg amp_h ph_h ref
        else hover_aero_report cfg amp_h ph_h ref)
  /\ (_pick_state runs (sm_ground100 (state_map cfg)) = None
      \/ (exists g, _pick_state runs (sm_ground100 (state_map cfg)) = Some g
                    /\ dict_empty g = true) ->
      _detail_hover runs cfg =
      hover_aero_report cfg amp_h ph_h "No Ground reference available")
  /\ (forall a b,
        _ang_diff_deg a b =
        abs (if (180 <? Py.float_rem (a - b) 360)%float
             then 360 - Py.float_rem (a - b) 360
             else Py.float_rem (a - b) 360)%float)
  /\ _ang_diff_deg 170 20 = 150%float
  /\ _ang_diff_deg 80 70 = 10%float
  /\ _ang_diff_deg 10 350 = 20%float.
Proof.
  intros Hpick Hne Hamp Hph Hlim.
  pose proof (_detail_hover_needs cfg runs hover amp_h ph_h Hpick Hne Hamp Hph Hlim)
    as Hdetail.
  split.
  { unfold _status_hover. simpl. rewrite Hpick, Hne, Hamp. simpl.
    unfold limit_status. now rewrite Hlim. }
  split.
  { intros g amp_g ph_g Hg Hgne Hga Hgp d ref. rewrite Hdetail, Hg.
    unfold hover_reference. rewrite Hgne, Hga. simpl. rewrite Hgp. reflexivity. }
  split.
  { intros [Hnone|(g & Hg & Hge)]; rewrite Hdetail.
    - rewrite Hnone. reflexivity.
    - rewrite Hg. unfold hover_reference. rewrite Hge. reflexivity. }
  repeat split; reflexivity.
Qed.

(** The worked example of C4: 150 degrees apart, five tip-weight units. *)
Lemma hover_mass_or_aero_witness :
  _detail_hover scenario3_runs sample_cfg =
  Ok ("Hover - Product Balance vs Roll",
      [ "Status: NEEDS";
        "LAT 1R: 0.250 ips @ 170.0°";
        "Limit : < 0.15 ips";
        "Angle vs Ground: Δ=150°";
        "Decision: AERO (Blade) - product bal";
        "Add TIP weights: ~5 units";
        "Place @ 11:30";
        "NOTE: tip weights are ~11x hub effect";
        "      and will affect ground balance";
        "Re-measure HOVER to validate." ]).
Proof.
  destruct (hover_mass_or_aero sample_cfg scenario3_runs (lat_record 0.25 170)
              0.25 170
              ltac:(reflexivity) ltac:(reflexivity) ltac:(reflexivity)
              ltac:(reflexivity) ltac:(reflexivity))
    as (_ & Hgnd & _).
  rewrite (Hgnd (lat_record 0.1 20) 0.1%float 20%float
             ltac:(reflexivity) ltac:(reflexivity) ltac:(reflexivity)
             ltac:(reflexivity)).
  reflexivity.
Defined.

(** ** The order on floats, from the kernel's specification of [<?] *)
Lemma SFcompare_finite_lt (s1 s2 : bool) (m1 m2 : positive) (e1 e2 : Z) :
  SFcompare (S754_finite s1 m1 e1) (S754_finite s2 m2 e2) = Some Lt <->
  match s1, s2 with
  | true, false => True
  | false, true => False
  | false, false => e1 < e2 \/ (e1 = e2 /\ (m1 < m2)%positive)
  | true, true => e2 < e1 \/ (e1 = e2 /\ (m2 < m1)%positive)
  end.
Proof.
  simpl. change (Pos.compare_cont Eq m1 m2) with (Pos.compare m1 m2).
  destruct s1, s2.
  - destruct (Z.compare_spec e1 e2) as [He|He|He];
      destruct (Pos.compare_spec m1 m2) as [Hm|Hm|Hm]; simpl;
      split; intros Hx; try discriminate; try reflexivity; lia.
  - split; [trivial|reflexivity].
  - split; [discriminate|tauto].
  - destruct (Z.compare_spec e1 e2) as [He|He|He];
      destruct (Pos.compare_spec m1 m2) as [Hm|Hm|Hm]; simpl;
      split; intros Hx; try discriminate; try reflexivity; lia.
Qed.

Lemma SFltb_trans (a b c : spec_float) :
  SFltb a b = true -> SFltb b c = true -> SFltb a c = true.
Proof.
  unfold SFltb.
  destruct (SFcompare a b) as [[]|] eqn:Hab; try discriminate.
  destruct (SFcompare b c) as [[]|] eqn:Hbc; try discriminate.
  intros _ _.
  destruct a as [sa|sa| |sa ma ea], b as [sb|sb| |sb mb eb], c as [sc|sc| |sc mc ec];
    try discriminate;
    repeat match goal with
           | s : bool |- _ => destruct s
           end;
    try discriminate; try reflexivity;
    apply SFcompare_finite_lt in Hab; apply SFcompare_finite_lt in Hbc;
    match goal with
    | |- context [SFcompare ?x ?y] =>
        assert (H : SFcompare x y = Some Lt)
          by (apply SFcompare_finite_lt; simpl; lia);
        now rewrite H
    end.
Qed.

Lemma SFltb_asym (a b : spec_float) :
  SFltb a b = true -> SFltb b a = false.
Proof.
  unfold SFltb.
  destruct (SFcompare a b) as [[]|] eqn:Hab; try discriminate. intros _.
  destruct (SFcompare b a) as [[]|] eqn:Hba; try reflexivity.
  destruct a as [sa|sa| |sa ma ea], b as [sb|sb| |sb mb eb];
    try discriminate;
    repeat match goal with
           | s : bool |- _ => destruct s
           end;
    try discriminate;
    apply SFcompare_finite_lt in Hab; apply SFcompare_finite_lt in Hba; lia.
Qed.

Lemma ltb_trans (x y z : float) :
  (x <? y)%float = true -> (y <? z)%float = true -> (x <? z)%float = true.
Proof. rewrite !FloatAxioms.ltb_spec. apply SFltb_trans. Qed.

Lemma ltb_asym (x y : float) :
  (x <? y)%float = true -> (y <? x)%float = false.
Proof. rewrite !FloatAxioms.ltb_spec. apply SFltb_asym. Qed.

Lemma ltb_irrefl (x : float) : (x <? x)%float = false.
Proof.
  destruct (x <? x)%float eqn:H; [|reflexivity].
  pose proof (ltb_asym x x H). congruence.
Qed.

Lemma ltb_zero_nonzero (s : float) :
  (0 <? s)%float = true -> (s =? 0)%float = false.
Proof.
  rewrite FloatAxioms.ltb_spec, FloatAxioms.eqb_spec. change (Prim2SF 0) with (S754_zero false).
  unfold SFltb, SFeqb.
  destruct (Prim2SF s) as [b|b| |b m e]; try destruct b; simpl; congruence.
Qed.

(** ** The vertical stage at 120 KIAS *)

(** The loop of [_nearest_blade] either keeps its initial [best], which
    no item beat, or ends on an item that beat it and that no item is
    nearer than. *)
Lemma nearest_loop_spec (t : float) (items : list (string * float))
    (best : option string) (best_d : float) :
  (nearest_loop t items best best_d = best
   /\ forall b' a', In (b', a') items ->
        (_ang_diff_deg t a' <? best_d)%float = false)
  \/ (exists b a,
        nearest_loop t items best best_d = Some b
        /\ In (b, a) items
        /\ (_ang_diff_deg t a <? best_d)%float = true
        /\ forall b' a', In (b', a') items ->
             (_ang_diff_deg t a' <? _ang_diff_deg t a)%float = false).
Proof.
  revert best best_d. induction items as [|[bl az] rest IH]; intros best best_d.
  - left. split; [reflexivity|]. intros b' a' [].
  - simpl. destruct (_ang_diff_deg t az <? best_d)%float eqn:Hd.
    + right.
      destruct (IH (Some bl) (_ang_diff_deg t az))
        as [[Hb Hrest]|(b & a & Hb & Hin & Hlt & Hrest)].
      * exists bl, az. split; [exact Hb|]. split; [now left|]. split; [exact Hd|].
        intros b' a' [Heq|Hin]; [|now apply (Hrest b')].
        injection Heq as _ ->. apply ltb_irrefl.
      * exists b, a. split; [exact Hb|]. split; [now right|].
        split; [now apply (ltb_trans _ _ _ Hlt)|].
        intros b' a' [Heq|Hin']; [|now apply (Hrest b')].
        injection Heq as _ ->. now apply ltb_asym.
    + destruct (IH best best_d) as [[Hb Hrest]|(b & a & Hb & Hin & Hlt & Hrest)].
      * left. split; [exact Hb|].
        intros b' a' [Heq|Hin]; [|now apply (Hrest b')].
        now injection Heq as _ ->.
      * right. exists b, a. split; [exact Hb|]. split; [now right|].
        split; [exact Hlt|].
        intros b' a' [Heq|Hin']; [|now apply (Hrest b')].
        injection Heq as _ <-.
        destruct (_ang_diff_deg t az <? _ang_diff_deg t a)%float eqn:Hlt';
          [|reflexivity].
        rewrite (ltb_trans _ _ _ Hlt' Hlt) in Hd. discriminate.
Qed.

(** [_nearest_blade] names a configured blade as soon as one configured
    azimuth passes the loop's first test, a circular difference under the
    initial bound of 1e9, and no configured blade is nearer to the target
    than the one it names; a blade whose name is empty is shown as the
    placeholder, by [best or "(BLADE)"].  With no such azimuth, and so
    with no blade configured at all, it answers with the placeholder. *)
Lemma _nearest_blade_spec (t : float) (blade_az : list (string * float)) :
  ((exists b0 a0, In (b0, a0) blade_az
                  /\ (_ang_diff_deg t a0 <? 1e9)%float = true) ->
   exists b a,
     In (b, a) blade_az
     /\ (forall b' a', In (b', a') blade_az ->
           (_ang_diff_deg t a' <? _ang_diff_deg t a)%float = false)
     /\ _nearest_blade t blade_az = (if String.eqb b "" then "(BLADE)" else b))
  /\ ((forall b0 a0, In (b0, a0) blade_az ->
         (_ang_diff_deg t a0 <? 1e9)%float = false) ->
      _nearest_blade t blade_az = "(BLADE)").
Proof.
  unfold _nearest_blade.
  destruct (nearest_loop_spec t blade_az None 1e9)
    as [[Hb Hnone]|(b & a & Hb & Hin & Hlt & Hmin)].
  - split.
    + intros (b0 & a0 & Hin0 & Hlt0). rewrite (Hnone b0 a0 Hin0) in Hlt0.
      discriminate.
    + intros _. rewrite Hb. now destruct blade_az.
  - split.
    + intros _. exists b, a. split; [exact Hin|]. split; [exact Hmin|].
      rewrite Hb. destruct blade_az; [destruct Hin|]. now destruct b.
    + intros Hnone. rewrite (Hnone b a Hin) in Hlt. discriminate.
Qed.

Lemma tab_degrees_formula (amp s : float) :
  tab_degrees amp s =
  let d0 := if (0 <? s)%float then (amp / s)%float else 0%float in
  let* r := Py.round (d0 / 0.1)%float in
  let* fr := Py.float_of_int r in
  Ok (NFloat (Py.max_float 0.2 (fr * 0.1)%float)).
Proof.
  unfold tab_degrees.
  destruct (0 <? s)%float eqn:Hs.
  - unfold Py.truediv. rewrite (ltb_zero_nonzero s Hs). simpl.
    rewrite _round_to_tenth.
    destruct (Py.round _) as [r|]; [simpl|reflexivity].
    destruct (Py.float_of_int r) as [fr|]; [simpl|reflexivity].
    unfold num_max, Py.max_float. simpl.
    destruct (0.2 <? fr * 0.1)%float; reflexivity.
  - cbn [bind]. rewrite _round_to_tenth.
    destruct (Py.round _) as [r|]; [simpl|reflexivity].
    destruct (Py.float_of_int r) as [fr|]; [simpl|reflexivity].
    unfold num_max, Py.max_float. simpl.
    destruct (0.2 <? fr * 0.1)%float; reflexivity.
Qed.

(** C6. A kias120 record whose vertical amplitude is not under the limit
    is NEEDS, and its detail bends a tab by
    [max(0.2, round(amp / vertical_tab_ips_per_deg, nearest 0.1))] degrees
    (the quotient counting as 0 when the sensitivity is not positive):
    with option 1, up, on the blade nearest the measured phase; otherwise
    (option 2), down, on the blade nearest [phase + 180 mod 360].  The
    blade named for either target is a configured blade than which none
    has a smaller circular difference to the target, as soon as one
    configured azimuth is comparable with the target (its difference is
    under the loop's initial 1e9); when none is, and so when no blade is
    configured, the line names the placeholder "(BLADE)". *)
Theorem kias120_tab_bend (cfg : Config) (runs : runset) (m : record)
    (amp ph : float) (option_120k : Z) :
  _pick_state runs (sm_kias120 (state_map cfg)) = Some m ->
  dict_empty m = false ->
  vert_amp m = Ok amp ->
  vert_phase m = Ok ph ->
  (amp <? kias120_vert_limit cfg)%float = false ->
  let s := vertical_tab_ips_per_deg cfg in
  let az := blade_azimuth_deg cfg in
  let opp := Py.float_rem (ph + 180) 360 in
  _status_120k runs cfg true = Ok NEEDS
  /\ _detail_120k runs cfg option_120k =
     (let d0 := if (0 <? s)%float then (amp / s)%float else 0%float in
      let* r := Py.round (d0 / 0.1)%float in
      let* fr := Py.float_of_int r in
      let deg := Py.max_float 0.2 (fr * 0.1)%float in
      Ok ("120 KIAS - Vertical Smoother",
          _wrap ([ "Status: NEEDS";
                   "VRT 1R: " +:+ Py.format_f 3 amp +:+ " ips @ "
                     +:+ Py.format_f 1 ph +:+ "°";
                   "Limit : < " +:+ Py.format_f 2 (kias120_vert_limit cfg)
                     +:+ " ips" ]
                 ++ (if option_120k =? 1
                     then [ "Option 1 selected";
                            "Bend OUTBD TAB of " +:+ _nearest_blade ph az +:+ " UP";
                            "Amount: " +:+ Py.format_f 1 deg +:+ "°" ]
                     else [ "Option 2 selected";
                            "Bend OUTBD TAB of " +:+ _nearest_blade opp az
                              +:+ " DOWN";
                            "Amount: " +:+ Py.format_f 1 deg +:+ "°" ])
                 ++ ["Re-measure 120K to validate."])))
  /\ (forall t, t = ph \/ t = opp ->
        ((exists b0 a0, In (b0, a0) az
                        /\ (_ang_diff_deg t a0 <? 1e9)%float = true) ->
         exists b a,
           In (b, a) az
           /\ (forall b' a', In (b', a') az ->
                 (_ang_diff_deg t a' <? _ang_diff_deg t a)%float = false)
           /\ _nearest_blade t az = (if String.eqb b "" then "(BLADE)" else b))
        /\ ((forall b0 a0, In (b0, a0) az ->
               (_ang_diff_deg t a0 <? 1e9)%float = false) ->
            _nearest_blade t az = "(BLADE)")).
Proof.
  intros Hpick Hne Hamp Hph Hlim s az opp. split; [|split].
  - unfold _status_120k. simpl. rewrite Hpick, Hne, Hamp. simpl.
    unfold limit_status. now rewrite Hlim.
  - unfold _detail_120k. rewrite Hpick, Hne, Hamp. simpl. rewrite Hph. simpl.
    rewrite Hlim. rewrite tab_degrees_formula. fold s. simpl.
    destruct (Py.round _) as [r|]; [simpl|reflexivity].
    destruct (Py.float_of_int r) as [fr|]; [simpl|reflexivity].
    unfold correction_angle. fold opp az.
    destruct (option_120k =? 1); reflexivity.
  - intros t _. apply _nearest_blade_spec.
Qed.

(** The worked example of C6: three degrees, RED up or BLU down; RED, at
    180, is the configured blade nearest to 220, and BLU, at 0, the one
    nearest to 40. *)
Lemma kias120_tab_bend_witness :
  _detail_120k kias120_runs sample_cfg 1 =
  Ok ("120 KIAS - Vertical Smoother",
      [ "Status: NEEDS"; "VRT 1R: 0.300 ips @ 220.0°"; "Limit : < 0.20 ips";
        "Option 1 selected"; "Bend OUTBD TAB of RED UP"; "Amount: 3.0°";
        "Re-measure 120K to validate." ])
  /\ _detail_120k kias120_runs sample_cfg 2 =
     Ok ("120 KIAS - Vertical Smoother",
         [ "Status: NEEDS"; "VRT 1R: 0.300 ips @ 220.0°"; "Limit : < 0.20 ips";
           "Option 2 selected"; "Bend OUTBD TAB of BLU DOWN"; "Amount: 3.0°";
           "Re-measure 120K to validate." ])
  /\ (exists b a,
        In (b, a) (blade_azimuth_deg sample_cfg)
        /\ (forall b' a', In (b', a') (blade_azimuth_deg sample_cfg) ->
              (_ang_diff_deg 220 a' <? _ang_diff_deg 220 a)%float = false)
        /\ _nearest_blade 220 (blade_azimuth_deg sample_cfg)
           = (if String.eqb b "" then "(BLADE)" else b)).
Proof.
  split; [|split].
  - rewrite (proj1 (proj2 (kias120_tab_bend sample_cfg kias120_runs
                             (vert_record 0.30 220) 0.30 220 1
                             ltac:(reflexivity) ltac:(reflexivity)
                             ltac:(reflexivity) ltac:(reflexivity)
                             ltac:(reflexivity)))).
    vm_compute. reflexivity.
  - rewrite (proj1 (proj2 (kias120_tab_bend sample_cfg kias120_runs
                             (vert_record 0.30 220) 0.30 220 2
                             ltac:(reflexivity) ltac:(reflexivity)
                             ltac:(reflexivity) ltac:(reflexivity)
                             ltac:(reflexivity)))).
    vm_compute. reflexivity.
  - apply (proj1 (proj2 (proj2 (kias120_tab_bend sample_cfg kias120_runs
                                  (vert_record 0.30 220) 0.30 220 1
                                  ltac:(reflexivity) ltac:(reflexivity)
                                  ltac:(reflexivity) ltac:(reflexivity)
                                  ltac:(reflexivity))) 220%float (or_introl eq_refl))).
    exists "RED", 180%float. split; [simpl; tauto|vm_compute; reflexivity].
Defined.

(** ** The letdown trim and its safety compromise *)

Section LetdownProperties.

Variables libm_cos libm_sin : float -> float.
Variable libm_hypot : float -> float -> float.

Let vec := _vec libm_cos libm_sin.
Let cabs := c_abs libm_hypot.

Lemma _vec_components (amp ph : float) (v : complex) :
  vec amp ph = Ok v ->
  v = {| re := (amp * libm_cos (radians ph))%float;
         im := (amp * libm_sin (radians ph))%float |}.
Proof.
  unfold vec, _vec, math_1. intros H.
  destruct (is_nan (libm_cos _) && _); [discriminate|].
  destruct (is_infinity (libm_cos _) && _); [discriminate|]. simpl in H.
  destruct (is_nan (libm_sin _) && _); [discriminate|].
  destruct (is_infinity (libm_sin _) && _); [discriminate|]. simpl in H.
  now injection H as <-.
Qed.

Lemma c_abs_finite (z : complex) (x : float) :
  cabs z = Ok x ->
  is_finite (re z) = true -> is_finite (im z) = true ->
  x = libm_hypot (re z) (im z).
Proof.
  unfold cabs, c_abs. intros H H1 H2. rewrite H1, H2 in H. simpl in H.
  destruct (is_finite (libm_hypot _ _)); congruence.
Qed.

Lemma letdown_safety_formula (cfg : Config) (g : record)
    (amp ph corr g_amp g_ph g_new : float) (grams_full : Z) (vg c_full : complex) :
  dict_empty g = false ->
  lat_amp g = Ok g_amp ->
  lat_phase g = Ok g_ph ->
  vec g_amp g_ph = Ok vg ->
  vec amp corr = Ok c_full ->
  cabs (c_add vg c_full) = Ok g_new ->
  letdown_safety libm_cos libm_sin libm_hypot cfg amp ph corr (NInt grams_full)
    (Some g) =
  (let* extra :=
     if (ground_ips_limit cfg <? g_new)%float
     then compromise_lines libm_cos libm_sin libm_hypot amp ph grams_full vg c_full
     else Ok [] in
   Ok ([ "Check 100NR: predicted " +:+ Py.format_f 3 g_new +:+ " ips";
         "Ground limit: " +:+ Py.format_f 2 (ground_ips_limit cfg) +:+ " ips" ]
       ++ extra)).
Proof.
  intros Hne Hga Hgp Hvg Hc Hnew. unfold letdown_safety.
  rewrite Hne, Hga. cbn [bind]. rewrite Hgp. cbn [bind].
  fold vec. rewrite Hvg. cbn [bind]. rewrite Hc. cbn [bind].
  fold cabs. rewrite Hnew. cbn [bind].
  destruct (ground_ips_limit cfg <? g_new)%float; [|reflexivity].
  unfold compromise_lines, num_float. fold vec cabs.
  destruct (Py.float_of_int grams_full) as [gf|]; [cbn [bind]|reflexivity].
  rewrite _round_to_10.
  destruct (Py.round _) as [rh|]; [cbn [bind]|reflexivity].
  destruct (cabs (c_add vg (c_scale c_full 0.5))) as [g_half|];
    [cbn [bind]|reflexivity].
  destruct (vec amp ph) as [v|]; [cbn [bind]|reflexivity].
  destruct (cabs (c_add v (c_scale c_full 0.5))) as [l_half|]; reflexivity.
Qed.

(** C5. For a letdown record in need over a ground100 record: the
    predicted ground amplitude is the magnitude of the sum of the ground
    phasor (ground amplitude at the ground phase) and the full correction
    phasor (letdown amplitude at [phase + 180 mod 360]); the detail emits
    the 50% compromise exactly when that prediction is over the ground
    limit, with grams [round(full grams * 0.5 / 10) * 10] and the two
    predicted amplitudes, each the magnitude of a phasor plus the
    correction phasor scaled by 0.5. *)
Theorem letdown_half_strength_compromise (cfg : Config) (runs : runset)
    (m g : record) (amp ph g_amp g_ph q g_new : float) (r : Z)
    (vg c_full : complex) :
  _pick_state runs (sm_letdown (state_map cfg)) = Some m ->
  dict_empty m = false ->
  lat_amp m = Ok amp ->
  lat_phase m = Ok ph ->
  (amp <? letdown_ips_limit cfg)%float = false ->
  _pick_state runs (sm_ground100 (state_map cfg)) = Some g ->
  dict_empty g = false ->
  lat_amp g = Ok g_amp ->
  lat_phase g = Ok g_ph ->
  Py.truediv amp (hub_weight_sensitivity_ips_per_100g cfg) = Ok q ->
  Py.round (q * 100 / 10)%float = Ok r ->
  let corr := Py.float_rem (ph + 180) 360 in
  _vec libm_cos libm_sin g_amp g_ph = Ok vg ->
  _vec libm_cos libm_sin amp corr = Ok c_full ->
  c_abs libm_hypot (c_add vg c_full) = Ok g_new ->
  vg = {| re := (g_amp * libm_cos (radians g_ph))%float;
          im := (g_amp * libm_sin (radians g_ph))%float |}
  /\ c_full = {| re := (amp * libm_cos (radians corr))%float;
                 im := (amp * libm_sin (radians corr))%float |}
  /\ (is_finite (re vg + re c_full)%float = true ->
      is_finite (im vg + im c_full)%float = true ->
      g_new = libm_hypot (re vg + re c_full)%float (im vg + im c_full)%float)
  /\ c_scale c_full 0.5 =
     {| re := (re c_full * 0.5 - im c_full * 0)%float;
        im := (re c_full * 0 + im c_full * 0.5)%float |}
  /\ _detail_letdown libm_cos libm_sin libm_hypot runs cfg =
     (let* clock := _deg_to_clock corr in
      let* hint := _hub_split_hint corr in
      let* extra :=
        if (ground_ips_limit cfg <? g_new)%float
        then compromise_lines libm_cos libm_sin libm_hypot amp ph (r * 10) vg c_full
        else Ok [] in
      Ok ("Letdown - Final Trim",
          _wrap ([ "Status: NEEDS";
                   "LAT 1R: " +:+ Py.format_f 3 amp +:+ " ips @ "
                     +:+ Py.format_f 1 ph +:+ "°";
                   "Limit : < " +:+ Py.format_f 2 (letdown_ips_limit cfg)
                     +:+ " ips";
                   "Suggested HUB weight: ~" +:+ Py.str_of_int (r * 10) +:+ " g";
                   "Place @ " +:+ clock;
                   hint;
                   "Check 100NR: predicted " +:+ Py.format_f 3 g_new +:+ " ips";
                   "Ground limit: " +:+ Py.format_f 2 (ground_ips_limit cfg)
                     +:+ " ips" ]
                 ++ extra ++ ["Re-measure LETDOWN to validate."]))).
Proof.
  intros Hpick Hne Hamp Hph Hlim Hg Hgne Hga Hgp Hq Hr corr Hvg Hc Hnew.
  split; [exact (_vec_components _ _ _ Hvg)|].
  split; [exact (_vec_components _ _ _ Hc)|].
  split; [exact (c_abs_finite _ _ Hnew)|].
  split; [reflexivity|].
  unfold _detail_letdown. rewrite Hpick, Hne, Hamp. cbn [bind].
  rewrite Hph. cbn [bind]. rewrite Hlim.
  rewrite hub_grams_formula, Hq. cbn [bind]. rewrite Hr. cbn [bind num_int].
  unfold correction_angle. fold corr.
  destruct (_deg_to_clock corr) as [clock|]; [cbn [bind]|reflexivity].
  destruct (_hub_split_hint corr) as [hint|]; [cbn [bind]|reflexivity].
  rewrite Hg.
  rewrite (letdown_safety_formula cfg g amp ph corr g_amp g_ph g_new (r * 10)
             vg c_full Hgne Hga Hgp Hvg Hc Hnew).
  destruct (if (ground_ips_limit cfg <? g_new)%float then _ else _) as [extra|];
    reflexivity.
Qed.

End LetdownProperties.

(** The worked example of C5, with the series standing in for the C
    library: the full correction predicts 0.319 ips on the ground, over
    the 0.15 limit, so half of the 160 g is proposed. *)
Lemma letdown_half_strength_compromise_witness :
  _detail_letdown approx_cos approx_sin approx_hypot scenario4_runs sample_cfg =
  Ok ("Letdown - Final Trim",
      [ "Status: NEEDS"; "LAT 1R: 0.180 ips @ 30.0°"; "Limit : < 0.15 ips";
        "Suggested HUB weight: ~160 g"; "Place @ 7:00"; "Split nearest: BLU/ORG";
        "Check 100NR: predicted 0.319 ips"; "Ground limit: 0.15 ips";
        "Safety compromise triggered"; "Use 50%: ~80 g";
        "Pred 100NR: 0.229 ips"; "Pred LET:  0.090 ips";
        "Re-measure LETDOWN to validate." ]).
Proof.
  pose (vg := {| re := (0.14 * approx_cos (radians 200))%float;
                 im := (0.14 * approx_sin (radians 200))%float |}).
  pose (c_full := {| re := (0.18 * approx_cos (radians 210))%float;
                     im := (0.18 * approx_sin (radians 210))%float |}).
  pose (g_new := approx_hypot (re vg + re c_full)%float (im vg + im c_full)%float).
  destruct (letdown_half_strength_compromise approx_cos approx_sin approx_hypot
              sample_cfg scenario4_runs (lat_record 0.18 30) (lat_record 0.14 200)
              0.18 30 0.14 200 (0.18 / 0.11)%float g_new 16 vg c_full
              ltac:(vm_compute; reflexivity) ltac:(vm_compute; reflexivity)
              ltac:(vm_compute; reflexivity) ltac:(vm_compute; reflexivity)
              ltac:(vm_compute; reflexivity) ltac:(vm_compute; reflexivity)
              ltac:(vm_compute; reflexivity) ltac:(vm_compute; reflexivity)
              ltac:(vm_compute; reflexivity) ltac:(vm_compute; reflexivity)
              ltac:(vm_compute; reflexivity) ltac:(vm_compute; reflexivity)
              ltac:(vm_compute; reflexivity) ltac:(vm_compute; reflexivity))
    as (_ & _ & _ & _ & Hdetail).
  rewrite Hdetail. vm_compute. reflexivity.
Defined.

(** ** Well-typed run sets, on which the evaluator returns *)

Lemma _pick_state_in (runs : runset) (candidates : list string) (m : record) :
  _pick_state runs candidates = Some m -> exists name, runs !! name = Some m.
Proof.
  induction candidates as [|name rest IH]; simpl; [discriminate|].
  destruct (runs !! name) as [m'|] eqn:E; [|exact IH].
  intros [= <-]. now exists name.
Qed.

Lemma py_float_or_scalar (v : pyval) :
  match v with PDict _ => False | _ => True end ->
  returns (py_float (py_or v (PNum 0))).
Proof.
  destruct v as [|x|d]; intros H; [| |destruct H]; unfold py_or; simpl.
  - now exists 0%float.
  - destruct (negb _); eexists; reflexivity.
Qed.

Lemma get_aliased_returns (m : record) (key legacy : string) :
  scalar_field m key -> scalar_field m legacy -> returns (get_aliased m key legacy).
Proof.
  unfold scalar_field, get_aliased, dict_get. intros Hk Hl.
  destruct (m !! key) as [v|]; [now apply py_float_or_scalar|].
  destruct (m !! legacy) as [v|]; [now apply py_float_or_scalar|].
  now exists 0%float.
Qed.

Lemma get_plain_returns (m : record) (key : string) :
  scalar_field m key -> returns (get_plain m key).
Proof.
  unfold scalar_field, get_plain, dict_get. intros Hk.
  destruct (m !! key) as [v|]; [now apply py_float_or_scalar|].
  now exists 0%float.
Qed.




(** ** The detail generator's fallbacks *)

Lemma status_of_unknown (l : list StepSummary) (id : string) :
  ~ In id (map step_id l) -> status_of l id = None.
Proof.
  induction l as [|s rest IH]; simpl; [reflexivity|]. intros Hnot.
  rewrite IH by tauto.
  destruct (String.eqb (step_id s) id) eqn:E; [|reflexivity].
  apply String.eqb_eq in E. tauto.
Qed.

Lemma locked_title_unknown (id : string) : ~ known_step id -> locked_title id = "DIAGS".
Proof.
  unfold known_step, locked_title. intros H.
  repeat match goal with
         | |- context [String.eqb id ?k] =>
             destruct (String.eqb_spec id k); [tauto|]
         end.
  reflexivity.
Qed.

Lemma locked_title_known (id : string) : known_step id -> locked_title id <> "DIAGS".
Proof.
  intros [-> | [-> | [-> | [-> | ->]]]]; vm_compute; discriminate.
Qed.

(** Walks a detail function that returned [Ok (t, ls)] down to the
    branch taken. *)
Ltac title_walk H :=
  repeat first
    [ discriminate H
    | progress (cbn [bind] in H)
    | match type of H with
      | bind ?r _ = _ => destruct r eqn:?
      | (if ?b then _ else _) = _ => destruct b eqn:?
      | match ?r with _ => _ end = _ => destruct r eqn:?
      end ];
  injection H as <- _; discriminate.

Lemma _detail_track60_title (runs : runset) (cfg : Config) (t : string)
    (ls : list string) :
  _detail_track60 runs cfg = Ok (t, ls) -> t <> "DIAGS".
Proof. unfold _detail_track60. intros H. title_walk H. Qed.

Lemma _detail_ground100_title (runs : runset) (cfg : Config) (t : string)
    (ls : list string) :
  _detail_ground100 runs cfg = Ok (t, ls) -> t <> "DIAGS".
Proof. unfold _detail_ground100. intros H. title_walk H. Qed.

Lemma _detail_hover_title (runs : runset) (cfg : Config) (t : string)
    (ls : list string) :
  _detail_hover runs cfg = Ok (t, ls) -> t <> "DIAGS".
Proof. unfold _detail_hover. intros H. title_walk H. Qed.

Lemma _detail_120k_title (runs : runset) (cfg : Config) (opt : Z) (t : string)
    (ls : list string) :
  _detail_120k runs cfg opt = Ok (t, ls) -> t <> "DIAGS".
Proof. unfold _detail_120k. intros H. title_walk H. Qed.

Lemma status_of_known (l : list StepSummary) (id : string) (s : status) :
  status_of l id = Some s -> In id (map step_id l).
Proof.
  induction l as [|a rest IH]; simpl; [discriminate|].
  destruct (status_of rest id) as [s'|].
  - intros H. right. now apply IH.
  - destruct (String.eqb_spec (step_id a) id) as [->|]; [now left|discriminate].
Qed.

Section DetailProperties.

Variables libm_cos libm_sin : float -> float.
Variable libm_hypot : float -> float -> float.

Lemma _detail_letdown_title (runs : runset) (cfg : Config) (t : string)
    (ls : list string) :
  _detail_letdown libm_cos libm_sin libm_hypot runs cfg = Ok (t, ls) ->
  t <> "DIAGS".
Proof. unfold _detail_letdown. intros H. title_walk H. Qed.

(** The detail of a stage that is open, NEEDS or DONE, never carries the
    title DIAGS. *)
Lemma open_detail_title (cfg : Config) (runs : runset) (id : string)
    (option_120k : Z) (t : string) (ls : list string) :
  known_step id ->
  (if String.eqb id "track60" then _detail_track60 runs cfg
   else if String.eqb id "ground100" then _detail_ground100 runs cfg
   else if String.eqb id "hover" then _detail_hover runs cfg
   else if String.eqb id "kias120" then _detail_120k runs cfg option_120k
   else if String.eqb id "letdown"
        then _detail_letdown libm_cos libm_sin libm_hypot runs cfg
   else Ok ("DIAGS", ["Unknown step"])) = Ok (t, ls) ->
  t <> "DIAGS".
Proof.
  intros [-> | [-> | [-> | [-> | ->]]]]; simpl;
    eauto using _detail_track60_title, _detail_ground100_title,
      _detail_hover_title, _detail_120k_title, _detail_letdown_title.
Qed.

(** C9, on the code: the answer written for an unknown step id, DIAGS
    with the line "Unknown step", is never returned, whatever the id, the
    runs and the parameters.  An id outside the five known ones is given
    the status MISSING by [summaries.get(step_id, "MISSING")], so the
    generator leaves through the branch of the stages that lack a
    measurement: it answers DIAGS with the two lines a known stage
    without a measurement gets, when the evaluator returns, and raises
    what the evaluator raises when it does not.  For a stage that is
    LOCKED or MISSING the answer is the stage's short title and the fixed
    text of that status, whatever the records hold; the answer for a
    known stage never has the title DIAGS. *)
Theorem unknown_step_fallback_unreachable (cfg : Config) (runs : runset)
    (id : string) (option_120k : Z) :
  step_detail_for_bht412 libm_cos libm_sin libm_hypot cfg runs id option_120k
  <> Ok ("DIAGS", ["Unknown step"])
  /\ (~ known_step id ->
      step_detail_for_bht412 libm_cos libm_sin libm_hypot cfg runs id option_120k
      = (let* _ := step_summaries_for_bht412 cfg runs in
         Ok ("DIAGS", missing_message)))
  /\ (forall l, step_summaries_for_bht412 cfg runs = Ok l ->
        (status_of l id = Some LOCKED ->
         step_detail_for_bht412 libm_cos libm_sin libm_hypot cfg runs id option_120k
         = Ok (locked_title id, locked_message))
        /\ (status_of l id = Some MISSING ->
            step_detail_for_bht412 libm_cos libm_sin libm_hypot cfg runs id
              option_120k
            = Ok (locked_title id, missing_message)))
  /\ (known_step id -> forall t ls,
        step_detail_for_bht412 libm_cos libm_sin libm_hypot cfg runs id option_120k
        = Ok (t, ls) ->
        t <> "DIAGS")
  /\ step_detail_for_bht412 libm_cos libm_sin libm_hypot sample_cfg scenario1_runs
       "tail_rotor" 1
     = Ok ("DIAGS", [ "No measurement for this step.";
                      "Go to MEASURE and run the regime." ])
  /\ step_detail_for_bht412 libm_cos libm_sin libm_hypot sample_cfg ∅ "track60" 1
     = Ok ("60% NR (Track)", [ "No measurement for this step.";
                               "Go to MEASURE and run the regime." ]).
Proof.
  unfold step_detail_for_bht412.
  split; [|split; [|split; [|split; [|split]]]].
  - destruct (step_summaries_for_bht412 cfg runs) as [l|] eqn:Hl; [|discriminate].
    cbn [bind].
    destruct (status_of l id) as [[]|] eqn:Hst;
      try (intros H; injection H as _ H; vm_compute in H; discriminate H).
    + intros H. apply open_detail_title in H; [congruence|].
      apply status_of_known in Hst.
      rewrite (proj1 (summaries_chain cfg runs l Hl)) in Hst.
      unfold known_step. simpl in Hst. intuition congruence.
    + intros H. apply open_detail_title in H; [congruence|].
      apply status_of_known in Hst.
      rewrite (proj1 (summaries_chain cfg runs l Hl)) in Hst.
      unfold known_step. simpl in Hst. intuition congruence.
  - intros Hunknown.
    destruct (step_summaries_for_bht412 cfg runs) as [l|] eqn:Hl; [|reflexivity].
    cbn [bind]. rewrite status_of_unknown.
    + now rewrite (locked_title_unknown id Hunknown).
    + rewrite (proj1 (summaries_chain cfg runs l Hl)).
      unfold known_step in Hunknown. simpl. intuition congruence.
  - intros l ->. cbn [bind]. split; intros ->; reflexivity.
  - intros Hknown t ls.
    destruct (step_summaries_for_bht412 cfg runs) as [l|] eqn:Hl; [|discriminate].
    cbn [bind]. pose proof (locked_title_known id Hknown) as Htitle.
    destruct (match status_of l id with Some s => s | None => MISSING end).
    + intros [= <- _]. exact Htitle.
    + intros [= <- _]. exact Htitle.
    + now apply open_detail_title.
    + now apply open_detail_title.
  - vm_compute. reflexivity.
  - vm_compute. reflexivity.
Qed.

End DetailProperties.

(** ** Worked examples of the gating chain, the track test and a silent channel *)

Lemma scenario1_well_typed : well_typed_runs scenario1_runs.
Proof.
  intros name m H. unfold scenario1_runs in H.
  apply lookup_insert_Some in H as [[_ <-]|[_ H]]; [vm_compute; tauto|].
  apply lookup_insert_Some in H as [[_ <-]|[_ H]]; [vm_compute; tauto|].
  rewrite lookup_empty in H. discriminate.
Defined.

(** The worked example of C1: track DONE, ground in need, the rest
    locked. *)
Lemma summaries_respect_order_witness :
  let l := [ mkStepSummary "track60" "GND 60% NR  Track Mech" DONE;
             mkStepSummary "ground100" "GND 100% NR  Mass Bal" NEEDS;
             mkStepSummary "hover" "HOVER  Lateral Decision" LOCKED;
             mkStepSummary "kias120" "120 KIAS  Vertical Smooth" LOCKED;
             mkStepSummary "letdown" "LETDOWN  Final Trim" LOCKED ] in
  step_summaries_for_bht412 sample_cfg scenario1_runs = Ok l
  /\ (forall i j si sj, (i < j)%nat ->
        map step_status l !! i = Some si ->
        map step_status l !! j = Some sj ->
        si <> DONE -> sj = LOCKED).
Proof.
  intros l.
  assert (H : step_summaries_for_bht412 sample_cfg scenario1_runs = Ok l)
    by (vm_compute; reflexivity).
  split; [exact H|].
  exact (proj1 (proj2 (summaries_respect_order sample_cfg scenario1_runs l H))).
Defined.

(** The worked example of C2: the blades of scenario 1 are on track, and
    blades with RED 8 mm under BLU are not. *)
Lemma track60_done_iff_three_checks_witness :
  _status_track60 scenario1_runs sample_cfg = Ok DONE
  /\ _status_track60 bad_track_runs sample_cfg = Ok NEEDS.
Proof.
  split.
  - pose proof (track60_done_iff_three_checks sample_cfg scenario1_runs good_track
                  (blades 22 22 (-22) (-22.45))
                  ltac:(vm_compute; reflexivity) ltac:(vm_compute; reflexivity)
                  ltac:(vm_compute; reflexivity)) as H.
    cbv zeta in H. destruct H as [[_ Hdone] _]. apply Hdone.
    split; [|split]; vm_compute; reflexivity.
  - pose proof (track60_done_iff_three_checks sample_cfg bad_track_runs
                  (track_record 14 22 (-18) (-23)) (blades 14 22 (-18) (-23))
                  ltac:(vm_compute; reflexivity) ltac:(vm_compute; reflexivity)
                  ltac:(vm_compute; reflexivity)) as H.
    cbv zeta in H. destruct H as [_ Hneeds]. apply Hneeds.
    left. vm_compute. reflexivity.
Defined.

(** The worked example of C10: a ground record with a phase and no
    amplitude is DONE. *)
Lemma silent_channel_passes_witness :
  _status_ground100 phase_only_runs sample_cfg true = Ok DONE.
Proof.
  destruct (silent_channel_passes sample_cfg phase_only_runs phase_only
              ltac:(vm_compute; reflexivity))
    as (Hground & _).
  apply Hground; [vm_compute; reflexivity|vm_compute; exact I|vm_compute; reflexivity].
Defined.

(** ** Non-positive sensitivities *)

(** C8, on the code: the hub-weight quotient is not guarded.  With a
    sensitivity of 0.0 the ground100 detail of scenario 1 raises
    [ZeroDivisionError], through the detail generator too; with a
    negative one it proposes a negative weight.  The vertical-tab
    quotient is guarded: at 0.0 the 120 KIAS detail returns, with the
    floor of 0.2 degrees. *)
Theorem hub_sensitivity_unguarded :
  _detail_ground100 scenario1_runs (with_hub_sensitivity sample_cfg 0)
  = Raise ZeroDivisionError
  /\ step_detail_for_bht412 approx_cos approx_sin approx_hypot
       (with_hub_sensitivity sample_cfg 0) scenario1_runs "ground100" 1
     = Raise ZeroDivisionError
  /\ _detail_ground100 scenario1_runs (with_hub_sensitivity sample_cfg (-0.11))
     = Ok ("100% NR - Ground Mass Balance",
           [ "Status: NEEDS"; "LAT 1R: 0.220 ips @ 70.0°"; "Limit : < 0.15 ips";
             "Add HUB weight: ~-200 g"; "Place @ 8:30 (180° from peak)";
             "Split nearest: GRN/RED"; "Re-measure 100NR to validate." ])
  /\ _detail_120k kias120_runs (with_tab_sensitivity sample_cfg 0) 1
     = Ok ("120 KIAS - Vertical Smoother",
           [ "Status: NEEDS"; "VRT 1R: 0.300 ips @ 220.0°"; "Limit : < 0.20 ips";
             "Option 1 selected"; "Bend OUTBD TAB of RED UP"; "Amount: 0.2°";
             "Re-measure 120K to validate." ]).
Proof. repeat split; vm_compute; reflexivity. Qed.

(** ** The loader *)

(** C7, as stated, fails on the code: a document that lacks every
    required key loads without an error. *)
Lemma load_without_required_keys :
  ~ (forall package_dir fs doc k,
       fs !! cfg_path package_dir = Some (Ok doc) ->
       In k required_keys -> lacks_key doc k ->
       raises (_load_cfg package_dir fs)).
Proof.
  intros H.
  destruct (H "rads" {[ cfg_path "rads" := Ok (JObject []) ]} (JObject [])
              "state_map") as [e He].
  - apply lookup_singleton_eq.
  - unfold required_keys. simpl. tauto.
  - reflexivity.
  - unfold _load_cfg in He. rewrite lookup_singleton_eq in He. discriminate.
Qed.

Lemma summaries_depend_on_resolved (cfg : Config) (runs1 runs2 : runset) :
  (forall candidates,
     In candidates [ sm_track60 (state_map cfg); sm_ground100 (state_map cfg);
                     sm_hover (state_map cfg); sm_kias120 (state_map cfg);
                     sm_letdown (state_map cfg) ] ->
     _pick_state runs1 candidates = _pick_state runs2 candidates) ->
  step_summaries_for_bht412 cfg runs1 = step_summaries_for_bht412 cfg runs2.
Proof.
  intros H.
  unfold step_summaries_for_bht412, _status_track60, _status_ground100,
    _status_hover, _status_120k, _status_letdown.
  rewrite (H (sm_track60 (state_map cfg))) by (simpl; tauto).
  rewrite (H (sm_ground100 (state_map cfg))) by (simpl; tauto).
  rewrite (H (sm_hover (state_map cfg))) by (simpl; tauto).
  rewrite (H (sm_kias120 (state_map cfg))) by (simpl; tauto).
  rewrite (H (sm_letdown (state_map cfg))) by (simpl; tauto).
  reflexivity.
Qed.

(** C7, amended.  Loading returns the parsed document as it is, whatever
    keys it holds; it fails only when the file is missing or is not JSON,
    with that error; it depends on nothing but that file, so loading again
    from an unchanged file gives an equal result; and the stage statuses
    are a function of the parameter set and of the records the run set
    resolves for the five stages. *)
Theorem load_cfg_returns_document_unvalidated (package_dir : string)
    (fs : filesystem) :
  (forall doc, fs !! cfg_path package_dir = Some (Ok doc) ->
     _load_cfg package_dir fs = Ok doc)
  /\ (forall e, _load_cfg package_dir fs = Raise e ->
        fs !! cfg_path package_dir = None /\ e = OSError
        \/ fs !! cfg_path package_dir = Some (Raise e))
  /\ (forall fs' : filesystem,
        fs' !! cfg_path package_dir = fs !! cfg_path package_dir ->
        _load_cfg package_dir fs' = _load_cfg package_dir fs)
  /\ (forall cfg runs1 runs2,
        (forall candidates,
           In candidates [ sm_track60 (state_map cfg); sm_ground100 (state_map cfg);
                           sm_hover (state_map cfg); sm_kias120 (state_map cfg);
                           sm_letdown (state_map cfg) ] ->
           _pick_state runs1 candidates = _pick_state runs2 candidates) ->
        step_summaries_for_bht412 cfg runs1 = step_summaries_for_bht412 cfg runs2).
Proof.
  unfold _load_cfg. split; [|split; [|split]].
  - now intros doc ->.
  - intros e. destruct (fs !! cfg_path package_dir) as [[doc|e']|].
    + discriminate.
    + intros [= ->]. now right.
    + intros [= <-]. now left.
  - now intros fs' ->.
  - apply summaries_depend_on_resolved.
Qed.

(** * Further properties of the engine *)

(** ** Alias resolution *)

(** X1. [_pick_state] resolves a stage to the record under the first name
    of the alias list that the run set holds, and to [None] exactly when
    the run set holds none of the names. *)
Theorem pick_state_first_match (runs : runset) (candidates : list string) :
  (forall m,
     _pick_state runs candidates = Some m <->
     exists before name after,
       candidates = before ++ name :: after
       /\ runs !! name = Some m
       /\ Forall (fun n => runs !! n = None) before)
  /\ (_pick_state runs candidates = None <->
      Forall (fun n => runs !! n = None) candidates).
Proof.
  induction candidates as [|c rest [IHsome IHnone]]; simpl.
  - split.
    + intros m. split; [discriminate|].
      intros (before & name & after & Heq & _). now destruct before.
    + split; [constructor|reflexivity].
  - destruct (runs !! c) as [mc|] eqn:Hc.
    + split.
      * intros m. split.
        -- intros [= <-]. exists [], c, rest. split; [reflexivity|].
           split; [exact Hc|constructor].
        -- intros (before & name & after & Heq & Hname & Hbefore).
           destruct before as [|b before]; simpl in Heq.
           ++ injection Heq as -> _. congruence.
           ++ injection Heq as -> _. inversion Hbefore. congruence.
      * split; [discriminate|]. intros H. inversion H. congruence.
    + split.
      * intros m. rewrite IHsome. split.
        -- intros (before & name & after & -> & Hname & Hbefore).
           exists (c :: before), name, after. split; [reflexivity|].
           split; [exact Hname|now constructor].
        -- intros (before & name & after & Heq & Hname & Hbefore).
           destruct before as [|b before]; simpl in Heq.
           ++ injection Heq as -> _. congruence.
           ++ injection Heq as -> ->. inversion Hbefore.
              exists before, name, after. split; [reflexivity|]. now split.
      * rewrite IHnone. split; [now constructor|]. intros H. now inversion H.
Qed.

(** ** No exception on well-typed records *)




(** ** Wrapping to the LCD width *)

Lemma append_cons (c : ascii) (a b : string) :
  String c a +:+ b = String c (a +:+ b).
Proof. reflexivity. Qed.

Lemma append_empty (a : string) : a +:+ EmptyString = a.
Proof.
  induction a as [|c a IH]; [reflexivity|]. now rewrite append_cons, IH.
Qed.

Lemma append_append (a b c : string) : (a +:+ b) +:+ c = a +:+ (b +:+ c).
Proof.
  induction a as [|x a IH]; [reflexivity|]. now rewrite !append_cons, IH.
Qed.

Lemma len_app (a b : string) : Py.len (a +:+ b) = (Py.len a + Py.len b)%nat.
Proof.
  induction a as [|c a IH]; [reflexivity|].
  rewrite append_cons. simpl.
  destruct (Py.is_continuation c); simpl; now rewrite IH.
Qed.

Lemma take_continuation_spec (s k r : string) :
  Py.take_continuation s = (k, r) ->
  k +:+ r = s /\ Py.len k = 0%nat /\ starts_clean r.
Proof.
  revert k r. induction s as [|c s IH]; simpl; intros k r H.
  - injection H as <- <-. repeat split.
  - destruct (Py.is_continuation c) eqn:Hc.
    + destruct (Py.take_continuation s) as [k' r'] eqn:Hs.
      injection H as <- <-. destruct (IH k' r' eq_refl) as (Happ & Hlen & Hclean).
      rewrite append_cons. simpl. rewrite Hc, Happ. repeat split; assumption.
    + injection H as <- <-. simpl. repeat split. exact Hc.
Qed.

Lemma split_at_spec (n : nat) (s a b : string) :
  Py.split_at n s = (a, b) ->
  a +:+ b = s /\ (Py.len a <= n)%nat.
Proof.
  revert s a b. induction n as [|n IH]; intros s a b H; simpl in H.
  - injection H as <- <-. split; [reflexivity|simpl; lia].
  - destruct s as [|c s]; [injection H as <- <-; split; [reflexivity|simpl; lia]|].
    destruct (Py.take_continuation s) as [k r] eqn:Hk.
    destruct (Py.split_at n r) as [a' b'] eqn:Hr.
    injection H as <- <-.
    destruct (take_continuation_spec _ _ _ Hk) as (Hkr & Hklen & _).
    destruct (IH _ _ _ Hr) as (Hab & Hlen).
    split.
    + rewrite append_cons. f_equal. rewrite <- Hkr, <- Hab.
      now rewrite append_append.
    + simpl. rewrite len_app, Hklen.
      destruct (Py.is_continuation c); simpl; lia.
Qed.

Lemma split_at_clean_progress (n : nat) (s a b : string) :
  Py.split_at (S n) s = (a, b) ->
  starts_clean s -> (1 <= Py.len s)%nat -> (1 <= Py.len a)%nat.
Proof.
  destruct s as [|c s]; simpl; [lia|]. intros H Hc _.
  destruct (Py.take_continuation s) as [k r].
  destruct (Py.split_at n r) as [a' b'].
  injection H as <- <-. simpl. rewrite Hc. lia.
Qed.

Lemma split_at_progress (n : nat) (s a b : string) :
  Py.split_at (S (S n)) s = (a, b) ->
  (1 <= Py.len s)%nat -> (1 <= Py.len a)%nat.
Proof.
  destruct s as [|c s]; [simpl; lia|]. intros H Hlen.
  destruct (Py.is_continuation c) eqn:Hc.
  - simpl in H. destruct (Py.take_continuation s) as [k r] eqn:Hk.
    destruct (take_continuation_spec _ _ _ Hk) as (Hkr & Hklen & Hclean).
    destruct r as [|c' r'].
    + exfalso. simpl in Hlen. rewrite Hc, <- Hkr, len_app, Hklen in Hlen.
      simpl in Hlen. lia.
    + simpl in Hclean.
      destruct (Py.take_continuation r') as [k' r''] eqn:Hk'.
      destruct (Py.split_at n r'') as [a' b'] eqn:Hr.
      injection H as <- <-. simpl. rewrite Hc, len_app. simpl.
      rewrite Hclean. lia.
  - apply (split_at_clean_progress _ _ _ _ H); [exact Hc|exact Hlen].
Qed.

Lemma wrap_line_join (fuel width : nat) (s : string) :
  join (wrap_line fuel width s) = s.
Proof.
  revert s. induction fuel as [|fuel IH]; intros s; simpl.
  - apply append_empty.
  - destruct (Nat.ltb width (Py.len s)); [|apply append_empty].
    destruct (Py.split_at width s) as [a b] eqn:Hs. simpl.
    rewrite IH. exact (proj1 (split_at_spec _ _ _ _ Hs)).
Qed.

Lemma wrap_line_bounded (fuel width : nat) (s : string) :
  (2 <= width)%nat -> (Py.len s <= fuel)%nat ->
  Forall (fun p => (Py.len p <= width)%nat) (wrap_line fuel width s).
Proof.
  intros Hw. revert s. induction fuel as [|fuel IH]; intros s Hfuel; simpl.
  - constructor; [lia|constructor].
  - destruct (Nat.ltb_spec width (Py.len s)) as [Hlong|Hshort];
      [|constructor; [lia|constructor]].
    destruct (Py.split_at width s) as [a b] eqn:Hs.
    destruct (split_at_spec _ _ _ _ Hs) as (Hab & Hla).
    constructor; [exact Hla|]. apply IH.
    destruct width as [|[|w]]; [lia|lia|].
    pose proof (split_at_progress _ _ _ _ Hs ltac:(lia)) as Hpa.
    rewrite <- Hab, len_app in Hfuel. lia.
Qed.

Lemma wrap_line_short (fuel width : nat) (s : string) :
  (Py.len s <= width)%nat -> wrap_line fuel width s = [s].
Proof.
  intros H. destruct fuel; simpl; [reflexivity|].
  destruct (Nat.ltb_spec width (Py.len s)); [lia|reflexivity].
Qed.

Lemma join_app (l1 l2 : list string) : join (l1 ++ l2) = join l1 +:+ join l2.
Proof.
  induction l1 as [|a l1 IH]; simpl; [reflexivity|].
  now rewrite IH, append_append.
Qed.

(** X3. [_wrap] never emits a line over the LCD width: every line of its
    output has at most 38 characters, whatever the input. *)
Theorem wrap_lines_fit (lines : list string) :
  Forall (fun p => (Py.len p <= 38)%nat) (_wrap lines).
Proof.
  unfold _wrap. induction lines as [|ln lines IH]; simpl; [constructor|].
  apply Forall_app. split; [|exact IH].
  apply wrap_line_bounded; lia.
Qed.

(** X4. [_wrap] only cuts: the pieces, read in order, spell the input
    lines again; lines are wrapped one by one; and a list of lines that
    all fit is returned as it is. *)
Theorem wrap_only_cuts (lines more : list string) :
  join (_wrap lines) = join lines
  /\ _wrap (lines ++ more) = _wrap lines ++ _wrap more
  /\ (Forall (fun p => (Py.len p <= 38)%nat) lines -> _wrap lines = lines).
Proof.
  unfold _wrap. split; [|split].
  - induction lines as [|ln lines IH]; simpl; [reflexivity|].
    now rewrite join_app, wrap_line_join, IH.
  - apply flat_map_app.
  - induction 1 as [|ln lines Hln _ IH]; simpl; [reflexivity|].
    now rewrite (wrap_line_short _ _ _ Hln), IH.
Qed.

(** ** The split hint *)

Lemma hour_of_label (h : Z) :
  1 <= h <= 12 ->
  Py.int_of_str (Py.before ":" (Py.str_of_int h +:+ ":00")) = Ok h
  /\ Py.int_of_str (Py.before ":" (Py.str_of_int h +:+ ":30")) = Ok h.
Proof.
  intros Hh.
  assert (Hcases : h = 1 \/ h = 2 \/ h = 3 \/ h = 4 \/ h = 5 \/ h = 6 \/ h = 7
                   \/ h = 8 \/ h = 9 \/ h = 10 \/ h = 11 \/ h = 12) by lia.
  repeat (destruct Hcases as [->|Hcases]; [split; vm_compute; reflexivity|]).
  subst h. split; vm_compute; reflexivity.
Qed.

(** X5. Whenever the clock label of an angle exists, the split hint
    exists too: the hour read back from the label (the text before the
    colon) is the hour the label was built from, in 1..12, and the hint is
    the pair of that hour's sector: 11, 12, 1 GRN/ORG; 2, 3, 4 RED/BLU;
    5, 6, 7 BLU/ORG; 8, 9, 10 GRN/RED. *)
Theorem hub_split_hint_follows_clock (deg : float) (lbl : string) :
  _deg_to_clock deg = Ok lbl ->
  exists h, 1 <= h <= 12
    /\ (lbl = Py.str_of_int h +:+ ":00" \/ lbl = Py.str_of_int h +:+ ":30")
    /\ Py.int_of_str (Py.before ":" lbl) = Ok h
    /\ _hub_split_hint deg = Ok (sector h).
Proof.
  intros H. destruct (_deg_to_clock_hours deg lbl H) as (h & Hh & Hlbl).
  exists h. split; [exact Hh|]. split; [exact Hlbl|].
  assert (Hparse : Py.int_of_str (Py.before ":" lbl) = Ok h).
  { destruct (hour_of_label h Hh) as [H00 H30]. now destruct Hlbl as [-> | ->]. }
  split; [exact Hparse|].
  unfold _hub_split_hint. rewrite H. cbn [bind]. rewrite Hparse. cbn [bind].
  unfold sector.
  destruct ((h =? 11) || (h =? 12) || (h =? 1)); [reflexivity|].
  destruct ((h =? 2) || (h =? 3) || (h =? 4)); [reflexivity|].
  destruct ((h =? 5) || (h =? 6) || (h =? 7)); reflexivity.
Qed.

(** The worked example of X5: 250 degrees is 8:30, between GRN and RED. *)
Lemma hub_split_hint_follows_clock_witness :
  exists h, 1 <= h <= 12
    /\ ("8:30" = Py.str_of_int h +:+ ":00" \/ "8:30" = Py.str_of_int h +:+ ":30")
    /\ Py.int_of_str (Py.before ":" "8:30") = Ok h
    /\ _hub_split_hint 250 = Ok (sector h).
Proof.
  exact (hub_split_hint_follows_clock 250 "8:30" ltac:(vm_compute; reflexivity)).
Defined.

(** ** The size of a proposed correction *)

(** X6. What the details propose is bounded the way the formulas promise:
    a pitch-link adjustment is at least one flat and a tip-weight
    proposal at least one unit; hub-weight grams are a multiple of 10; a
    tab bend is a float never under 0.2 degrees; and with a vertical-tab
    sensitivity that is not positive the bend is exactly 0.2 degrees,
    whatever the amplitude. *)
Theorem correction_sizes (x y : float) :
  (forall n, flats_for x y = Ok n -> 1 <= n)
  /\ (forall n, tip_units x y = Ok n -> 1 <= n)
  /\ (forall g, hub_grams x y = Ok g -> exists k, g = NInt (k * 10))
  /\ (forall d, tab_degrees x y = Ok d ->
        exists deg, d = NFloat deg /\ (deg <? 0.2)%float = false)
  /\ ((0 <? y)%float = false -> tab_degrees x y = Ok (NFloat 0.2)).
Proof.
  split; [|split; [|split; [|split]]].
  - unfold flats_for. intros n H.
    destruct (Py.truediv _ _) as [q|]; [cbn [bind] in H|discriminate].
    destruct (Py.round q) as [r|]; [cbn [bind] in H|discriminate].
    injection H as <-. lia.
  - unfold tip_units. intros n H.
    destruct (Py.round _) as [r|]; [cbn [bind] in H|discriminate].
    injection H as <-. lia.
  - rewrite hub_grams_formula. intros g H.
    destruct (Py.truediv _ _) as [q|]; [cbn [bind] in H|discriminate].
    destruct (Py.round _) as [r|]; [cbn [bind] in H|discriminate].
    injection H as <-. now exists r.
  - rewrite tab_degrees_formula. cbv zeta. intros d H.
    destruct (Py.round _) as [r|]; [cbn [bind] in H|discriminate].
    destruct (Py.float_of_int r) as [fr|]; [cbn [bind] in H|discriminate].
    injection H as <-. eexists. split; [reflexivity|].
    unfold Py.max_float. destruct (0.2 <? fr * 0.1)%float eqn:E.
    + now apply ltb_asym.
    + apply ltb_irrefl.
  - intros Hy. rewrite tab_degrees_formula, Hy. vm_compute. reflexivity.
Qed.

(** ** The orchestrator *)

Lemma chain_shut_all_locked (l : list status) :
  chain false l -> Forall (fun s => s = LOCKED) l.
Proof.
  induction l as [|a l IH]; simpl; [constructor|].
  intros [-> Hrest]. constructor; [reflexivity|]. now apply IH.
Qed.

Lemma next_step_split (l : list StepSummary) :
  (Forall (fun s => step_status s = DONE) l /\ next_step_of l = "complete")
  \/ (exists before s after,
        l = before ++ s :: after
        /\ Forall (fun s' => step_status s' = DONE) before
        /\ step_status s <> DONE
        /\ next_step_of l = step_id s).
Proof.
  induction l as [|a l IH]; simpl.
  - left. split; [constructor|reflexivity].
  - destruct (status_eqb (step_status a) DONE) eqn:Ha.
    + apply status_eqb_eq in Ha.
      destruct IH as [[Hall Hnext]|(before & s & after & -> & Hdone & Hs & Hnext)].
      * left. split; [now constructor|exact Hnext].
      * right. exists (a :: before), s, after. split; [reflexivity|].
        split; [now constructor|]. now split.
    + apply status_eqb_neq in Ha. right. exists [], a, l.
      split; [reflexivity|]. split; [constructor|]. now split.
Qed.

Lemma chain_first_open (before : list StepSummary) (s : StepSummary)
    (after : list StepSummary) :
  chain true (map step_status (before ++ s :: after)) ->
  Forall (fun s' => step_status s' = DONE) before ->
  step_status s <> DONE ->
  step_status s <> LOCKED
  /\ Forall (fun s' => step_status s' = LOCKED) after.
Proof.
  induction before as [|b before IH]; simpl; intros [Hhead Hrest] Hdone Hs.
  - split; [exact Hhead|].
    apply status_eqb_neq in Hs. rewrite Hs in Hrest.
    apply chain_shut_all_locked in Hrest.
    now apply Forall_map in Hrest.
  - inversion Hdone as [|? ? Hb Hdone']; subst.
    rewrite Hb in Hrest. simpl in Hrest. now apply IH.
Qed.

Section OrchestratorProperties.

Variables libm_cos libm_sin : float -> float.
Variable libm_hypot : float -> float -> float.

(** X7. What [diagnose_from_result] returns holds the evaluator's five
    summaries, and either every stage is DONE, the next step is
    "complete" and the detail is the completion message; or the next
    step is the first stage that is not DONE, every stage before it is
    DONE, it is MISSING or NEEDS (never LOCKED), every stage after it is
    LOCKED, and the detail is the detail generator's for that stage. *)
Theorem diagnose_points_at_first_open_stage (cfg : Config) (runs : runset)
    (option_120k : Z) (d : Diagnosis) :
  diagnose_from_result libm_cos libm_sin libm_hypot cfg runs option_120k = Ok d ->
  step_summaries_for_bht412 cfg runs = Ok (summaries d)
  /\ ((Forall (fun s => step_status s = DONE) (summaries d)
       /\ next_step d = "complete"
       /\ detail d = ("DIAGS", ["All steps DONE."; "Rotor within training limits."]))
      \/ (exists before s after,
            summaries d = before ++ s :: after
            /\ Forall (fun s' => step_status s' = DONE) before
            /\ next_step d = step_id s
            /\ (step_status s = MISSING \/ step_status s = NEEDS)
            /\ Forall (fun s' => step_status s' = LOCKED) after
            /\ step_detail_for_bht412 libm_cos libm_sin libm_hypot cfg runs
                 (step_id s) option_120k = Ok (detail d))).
Proof.
  unfold diagnose_from_result. intros H.
  destruct (step_summaries_for_bht412 cfg runs) as [l|] eqn:Hl; [|discriminate].
  cbn [bind] in H.
  destruct (summaries_chain cfg runs l Hl) as [Hids Hchain].
  destruct (next_step_split l)
    as [[Hall Hnext]|(before & s & after & Hsplit & Hdone & Hs & Hnext)].
  - rewrite Hnext in H. simpl in H. injection H as <-. simpl.
    split; [reflexivity|]. left. repeat split. exact Hall.
  - assert (Hid : String.eqb (step_id s) "complete" = false).
    { assert (Hin : In (step_id s) (map step_id l)).
      { rewrite Hsplit, map_app. apply in_or_app. right. now left. }
      rewrite Hids in Hin. simpl in Hin.
      destruct Hin as [<-|[<-|[<-|[<-|[<-|[]]]]]]; reflexivity. }
    rewrite Hnext, Hid in H.
    destruct (step_detail_for_bht412 _ _ _ cfg runs (step_id s) option_120k)
      as [det|] eqn:Hdet; [|discriminate].
    cbn [bind] in H. injection H as <-. simpl.
    split; [reflexivity|]. right. exists before, s, after.
    rewrite Hsplit in Hchain.
    destruct (chain_first_open before s after Hchain Hdone Hs) as [Hopen Hafter].
    split; [exact Hsplit|]. split; [exact Hdone|]. split; [reflexivity|].
    split; [destruct (step_status s); tauto|]. split; [exact Hafter|exact Hdet].
Qed.

End OrchestratorProperties.

(** The worked example of X7: scenario 1 points at ground100. *)
Lemma diagnose_points_at_first_open_stage_witness :
  step_summaries_for_bht412 sample_cfg scenario1_runs
  = Ok (summaries scenario1_diagnosis)
  /\ next_step scenario1_diagnosis = "ground100".
Proof.
  split; [|reflexivity].
  exact (proj1 (diagnose_points_at_first_open_stage approx_cos approx_sin
                  approx_hypot sample_cfg scenario1_runs 1 scenario1_diagnosis
                  ltac:(vm_compute; reflexivity))).
Defined.

(** ** A stage that is DONE *)

Lemma wrap_framed (first last : string) (body : list string) :
  (Py.len first <= 38)%nat -> (Py.len last <= 38)%nat ->
  _wrap (first :: body ++ [last]) = first :: _wrap body ++ [last].
Proof.
  intros Hf Hl. unfold _wrap. simpl. rewrite flat_map_app. simpl.
  now rewrite (wrap_line_short _ _ _ Hf), (wrap_line_short _ _ _ Hl).
Qed.

Lemma summaries_statuses (cfg : Config) (runs : runset) (l : list StepSummary) :
  step_summaries_for_bht412 cfg runs = Ok l ->
  exists s1 s2 s3 s4 s5 b2 b3 b4 b5,
    l = [ mkStepSummary "track60" "GND 60% NR  Track Mech" s1;
          mkStepSummary "ground100" "GND 100% NR  Mass Bal" s2;
          mkStepSummary "hover" "HOVER  Lateral Decision" s3;
          mkStepSummary "kias120" "120 KIAS  Vertical Smooth" s4;
          mkStepSummary "letdown" "LETDOWN  Final Trim" s5 ]
    /\ _status_track60 runs cfg = Ok s1
    /\ _status_ground100 runs cfg b2 = Ok s2
    /\ _status_hover runs cfg b3 = Ok s3
    /\ _status_120k runs cfg b4 = Ok s4
    /\ _status_letdown runs cfg b5 = Ok s5.
Proof.
  unfold step_summaries_for_bht412. intros H.
  destruct (_status_track60 runs cfg) as [s1|] eqn:H1; [|discriminate].
  cbn [bind] in H.
  destruct (_status_ground100 runs cfg _) as [s2|] eqn:H2; [|discriminate].
  cbn [bind] in H.
  destruct (_status_hover runs cfg _) as [s3|] eqn:H3; [|discriminate].
  cbn [bind] in H.
  destruct (_status_120k runs cfg _) as [s4|] eqn:H4; [|discriminate].
  cbn [bind] in H.
  destruct (_status_letdown runs cfg _) as [s5|] eqn:H5; [|discriminate].
  cbn [bind] in H. injection H as <-.
  exists s1, s2, s3, s4, s5. do 4 eexists.
  split; [reflexivity|]. repeat split; eassumption.
Qed.

Lemma status_of_five (s1 s2 s3 s4 s5 : status) (id : string) :
  status_of [ mkStepSummary "track60" "GND 60% NR  Track Mech" s1;
              mkStepSummary "ground100" "GND 100% NR  Mass Bal" s2;
              mkStepSummary "hover" "HOVER  Lateral Decision" s3;
              mkStepSummary "kias120" "120 KIAS  Vertical Smooth" s4;
              mkStepSummary "letdown" "LETDOWN  Final Trim" s5 ] id = Some DONE ->
  (id = "track60" /\ s1 = DONE) \/ (id = "ground100" /\ s2 = DONE)
  \/ (id = "hover" /\ s3 = DONE) \/ (id = "kias120" /\ s4 = DONE)
  \/ (id = "letdown" /\ s5 = DONE).
Proof.
  cbn [status_of step_id step_status].
  destruct (String.eqb_spec "letdown" id) as [<-|_];
    [intros [= ->]; tauto|].
  destruct (String.eqb_spec "kias120" id) as [<-|_];
    [intros [= ->]; tauto|].
  destruct (String.eqb_spec "hover" id) as [<-|_];
    [intros [= ->]; tauto|].
  destruct (String.eqb_spec "ground100" id) as [<-|_];
    [intros [= ->]; tauto|].
  destruct (String.eqb_spec "track60" id) as [<-|_];
    [intros [= ->]; tauto|discriminate].
Qed.

Lemma limit_stage_done (runs : runset) (candidates : list string)
    (read : record -> result float) (limit : float) :
  match _pick_state runs candidates with
  | None => Ok MISSING
  | Some m =>
      if dict_empty m then Ok MISSING
      else let* amp := read m in Ok (limit_status amp limit)
  end = Ok DONE ->
  exists m amp,
    _pick_state runs candidates = Some m /\ dict_empty m = false
    /\ read m = Ok amp /\ (amp <? limit)%float = true.
Proof.
  destruct (_pick_state runs candidates) as [m|]; [|discriminate].
  destruct (dict_empty m) eqn:Hne; [discriminate|].
  destruct (read m) as [amp|] eqn:Hamp; [cbn [bind]|discriminate].
  unfold limit_status. destruct (amp <? limit)%float eqn:Hlt; [|discriminate].
  intros _. now exists m, amp.
Qed.

Lemma phase_returns (runs : runset) (candidates : list string) (m : record) :
  well_typed_runs runs -> _pick_state runs candidates = Some m ->
  returns (lat_phase m) /\ returns (vert_phase m).
Proof.
  intros Hwt Hp. destruct (_pick_state_in _ _ _ Hp) as [name Hm].
  destruct (Hwt name m Hm) as (_ & _ & _ & ? & ? & _ & ?).
  split; [now apply get_aliased_returns|now apply get_plain_returns].
Qed.

Lemma _detail_track60_done (runs : runset) (cfg : Config) :
  _status_track60 runs cfg = Ok DONE ->
  exists body,
    _detail_track60 runs cfg
    = Ok ("60% NR - Track Mechanical",
          "Status: DONE" :: body ++ ["No correction required."]).
Proof.
  unfold _status_track60, _detail_track60.
  destruct (_pick_state runs _) as [m|]; [|discriminate].
  destruct (dict_empty m); [discriminate|].
  destruct (_track_checks m cfg) as [[ok info]|]; [cbn [bind fst snd]|discriminate].
  destruct ok; [|discriminate]. intros _. eexists.
  rewrite <- app_comm_cons. rewrite wrap_framed; [reflexivity|vm_compute; lia..].
Qed.

Lemma _detail_ground100_done (runs : runset) (cfg : Config) :
  well_typed_runs runs ->
  _status_ground100 runs cfg true = Ok DONE ->
  exists body,
    _detail_ground100 runs cfg
    = Ok ("100% NR - Ground Mass Balance",
          "Status: DONE" :: body ++ ["No correction required."]).
Proof.
  intros Hwt. unfold _status_ground100, _detail_ground100. cbn [negb].
  intros H; apply limit_stage_done in H.
  destruct H as (m & amp & Hp & Hne & Hamp & Hlt).
  destruct (phase_returns _ _ m Hwt Hp) as [[ph Hph] _].
  rewrite Hp, Hne, Hamp. cbn [bind]. rewrite Hph. cbn [bind]. rewrite Hlt.
  eexists. rewrite <- app_comm_cons.
  rewrite wrap_framed; [reflexivity|vm_compute; lia..].
Qed.

Lemma _detail_hover_done (runs : runset) (cfg : Config) :
  well_typed_runs runs ->
  _status_hover runs cfg true = Ok DONE ->
  exists body,
    _detail_hover runs cfg
    = Ok ("Hover - Product Balance vs Roll",
          "Status: DONE" :: body ++ ["No correction required."]).
Proof.
  intros Hwt. unfold _status_hover, _detail_hover. cbn [negb].
  intros H; apply limit_stage_done in H.
  destruct H as (m & amp & Hp & Hne & Hamp & Hlt).
  destruct (phase_returns _ _ m Hwt Hp) as [[ph Hph] _].
  rewrite Hp, Hne, Hamp. cbn [bind]. rewrite Hph. cbn [bind]. rewrite Hlt.
  eexists. rewrite <- app_comm_cons.
  rewrite wrap_framed; [reflexivity|vm_compute; lia..].
Qed.

Lemma _detail_120k_done (runs : runset) (cfg : Config) (option_120k : Z) :
  well_typed_runs runs ->
  _status_120k runs cfg true = Ok DONE ->
  exists body,
    _detail_120k runs cfg option_120k
    = Ok ("120 KIAS - Vertical Smoother",
          "Status: DONE" :: body ++ ["No correction required."]).
Proof.
  intros Hwt. unfold _status_120k, _detail_120k. cbn [negb].
  intros H; apply limit_stage_done in H.
  destruct H as (m & amp & Hp & Hne & Hamp & Hlt).
  destruct (phase_returns _ _ m Hwt Hp) as [_ [ph Hph]].
  rewrite Hp, Hne, Hamp. cbn [bind]. rewrite Hph. cbn [bind]. rewrite Hlt.
  eexists. rewrite <- app_comm_cons.
  rewrite wrap_framed; [reflexivity|vm_compute; lia..].
Qed.

Lemma gated_done (f : runset -> Config -> bool -> result status)
    (runs : runset) (cfg : Config) (b : bool) :
  f = _status_ground100 \/ f = _status_hover \/ f = _status_120k
    \/ f = _status_letdown ->
  f runs cfg b = Ok DONE -> b = true.
Proof.
  intros Hf H. pose proof (gated_status f runs cfg b DONE Hf H) as Hg.
  destruct b; [reflexivity|discriminate].
Qed.

Section DoneStageProperties.

Variables libm_cos libm_sin : float -> float.
Variable libm_hypot : float -> float -> float.

Lemma _detail_letdown_done (runs : runset) (cfg : Config) :
  well_typed_runs runs ->
  _status_letdown runs cfg true = Ok DONE ->
  exists body,
    _detail_letdown libm_cos libm_sin libm_hypot runs cfg
    = Ok ("Letdown - Final Trim",
          "Status: DONE" :: body ++ ["No correction required."]).
Proof.
  intros Hwt. unfold _status_letdown, _detail_letdown. cbn [negb].
  intros H; apply limit_stage_done in H.
  destruct H as (m & amp & Hp & Hne & Hamp & Hlt).
  destruct (phase_returns _ _ m Hwt Hp) as [[ph Hph] _].
  rewrite Hp, Hne, Hamp. cbn [bind]. rewrite Hph. cbn [bind]. rewrite Hlt.
  eexists. rewrite <- app_comm_cons.
  rewrite wrap_framed; [reflexivity|vm_compute; lia..].
Qed.

(** X8. For a stage the evaluator reports DONE, on a well-typed run set,
    the detail generator raises nothing and proposes nothing, whatever
    the sensitivities of the parameter set: its answer opens with
    "Status: DONE" and closes with "No correction required.". *)
Theorem done_stage_needs_no_correction (cfg : Config) (runs : runset)
    (id : string) (option_120k : Z) (l : list StepSummary) :
  well_typed_runs runs ->
  step_summaries_for_bht412 cfg runs = Ok l ->
  status_of l id = Some DONE ->
  exists title body,
    step_detail_for_bht412 libm_cos libm_sin libm_hypot cfg runs id option_120k
    = Ok (title, "Status: DONE" :: body ++ ["No correction required."]).
Proof.
  intros Hwt Hl Hst. unfold step_detail_for_bht412. rewrite Hl. cbn [bind].
  rewrite Hst.
  destruct (summaries_statuses cfg runs l Hl)
    as (s1 & s2 & s3 & s4 & s5 & b2 & b3 & b4 & b5 & -> & H1 & H2 & H3 & H4 & H5).
  destruct (status_of_five _ _ _ _ _ id Hst)
    as [[-> ->]|[[-> ->]|[[-> ->]|[[-> ->]|[-> ->]]]]]; cbn [String.eqb Ascii.eqb];
    simpl.
  - destruct (_detail_track60_done runs cfg H1) as [body ->]. eauto.
  - rewrite (gated_done _status_ground100 runs cfg b2 ltac:(tauto) H2) in H2.
    destruct (_detail_ground100_done runs cfg Hwt H2) as [body ->]. eauto.
  - rewrite (gated_done _status_hover runs cfg b3 ltac:(tauto) H3) in H3.
    destruct (_detail_hover_done runs cfg Hwt H3) as [body ->]. eauto.
  - rewrite (gated_done _status_120k runs cfg b4 ltac:(tauto) H4) in H4.
    destruct (_detail_120k_done runs cfg option_120k Hwt H4) as [body ->]. eauto.
  - rewrite (gated_done _status_letdown runs cfg b5 ltac:(tauto) H5) in H5.
    destruct (_detail_letdown_done runs cfg Hwt H5) as [body ->]. eauto.
Qed.

End DoneStageProperties.

(** The worked example of X8: in scenario 1 the track stage is DONE. *)
Lemma done_stage_needs_no_correction_witness :
  exists title body,
    step_detail_for_bht412 approx_cos approx_sin approx_hypot sample_cfg
      scenario1_runs "track60" 1
    = Ok (title, "Status: DONE" :: body ++ ["No correction required."]).
Proof.
  apply (done_stage_needs_no_correction approx_cos approx_sin approx_hypot
           sample_cfg scenario1_runs "track60" 1 (summaries scenario1_diagnosis)
           scenario1_well_typed).
  - vm_compute; reflexivity.
  - vm_compute; reflexivity.
Defined.

(** ** The menu's loader *)

Lemma loads_cached (doc : json) (package_dir : string) (fss : list filesystem) :
  doc <> JNull -> Forall (fun r => r = Ok doc) (Diags.loads doc package_dir fss).
Proof.
  intros Hdoc. induction fss as [|fs fss IH]; simpl; [constructor|].
  assert (H : Diags._load_cfg doc package_dir fs = (Ok doc, doc))
    by (destruct doc; congruence || reflexivity).
  rewrite H. simpl. now constructor.
Qed.

(** X9. The menu's loader reads the file once: when the first call, with
    nothing kept yet, finds a document other than [null], every later
    call returns that document, whatever has become of the file; the
    engine's loader is what the first call returns. *)
Theorem menu_loader_keeps_first_document (package_dir : string)
    (fs : filesystem) (doc : json) (later : list filesystem) :
  _load_cfg package_dir fs = Ok doc -> doc <> JNull ->
  Forall (fun r => r = Ok doc) (Diags.loads JNull package_dir (fs :: later)).
Proof.
  unfold _load_cfg. intros Hload Hdoc. simpl.
  destruct (fs !! cfg_path package_dir) as [[d|e]|]; try discriminate.
  injection Hload as ->. simpl. constructor; [reflexivity|].
  now apply loads_cached.
Qed.

(** ** The warnings list *)

Lemma warnings_fold (steps : list StepSummary) (acc : list string) :
  fold_left
    (fun warn s =>
       if status_eqb (step_status s) NEEDS
       then warn ++ [label s +:+ ": OUT OF LIMIT"]
       else if status_eqb (step_status s) MISSING
               || status_eqb (step_status s) LOCKED
       then warn ++ [label s +:+ ": INCOMPLETE"]
       else warn)
    steps acc
  = acc ++ flat_map warning_of steps.
Proof.
  revert acc. induction steps as [|s steps IH]; intros acc; simpl.
  - now rewrite app_nil_r.
  - rewrite IH. unfold warning_of at 2.
    destruct (step_status s); simpl; now rewrite <- ?app_assoc.
Qed.

Lemma warning_of_done (l : list StepSummary) :
  Forall (fun s => step_status s = DONE) l -> flat_map warning_of l = [].
Proof.
  induction 1 as [|s l Hs _ IH]; simpl; [reflexivity|].
  unfold warning_of at 1. now rewrite Hs.
Qed.

Lemma warning_of_locked (l : list StepSummary) :
  Forall (fun s => step_status s = LOCKED) l ->
  flat_map warning_of l = map incomplete l.
Proof.
  induction 1 as [|s l Hs _ IH]; simpl; [reflexivity|].
  unfold warning_of at 1. rewrite Hs. simpl. now rewrite IH.
Qed.

(** X10. The warnings list of the menu follows the chain.  With no runs
    for the active flight it is the one line "No measurements
    available."; with every stage DONE it is the one line "All
    measurements within limits"; otherwise it passes over the stages
    that are DONE, has one line for the first stage that is not, OUT OF
    LIMIT when that stage is NEEDS and INCOMPLETE when it is MISSING, and
    then INCOMPLETE for every later stage: OUT OF LIMIT is reported at
    most once, and first. *)
Theorem warnings_follow_the_chain (cfg : Config) (sim : Diags.RADSState)
    (w : list string) :
  Diags._warnings cfg sim = Ok w ->
  (dict_empty (snd (Diags._active_runs sim)) = true
   /\ w = ["No measurements available."])
  \/ exists l,
       step_summaries_for_bht412 cfg (snd (Diags._active_runs sim)) = Ok l
       /\ ((Forall (fun s => step_status s = DONE) l
            /\ w = ["All measurements within limits"])
           \/ exists before s after,
                l = before ++ s :: after
                /\ Forall (fun s' => step_status s' = DONE) before
                /\ ((step_status s = NEEDS
                     /\ w = (label s +:+ ": OUT OF LIMIT") :: map incomplete after)
                    \/ (step_status s = MISSING
                        /\ w = incomplete s :: map incomplete after))).
Proof.
  unfold Diags._warnings. cbv zeta.
  destruct (dict_empty (snd (Diags._active_runs sim))) eqn:Hruns.
  - intros [= <-]. now left.
  - destruct (step_summaries_for_bht412 cfg _) as [l|] eqn:Hl; [|discriminate].
    cbn [bind]. rewrite warnings_fold. simpl. intros [= <-].
    right. exists l. split; [reflexivity|].
    destruct (summaries_chain cfg _ l Hl) as [_ Hchain].
    destruct (next_step_split l)
      as [[Hall _]|(before & s & after & -> & Hdone & Hs & _)].
    + left. split; [exact Hall|]. now rewrite (warning_of_done l Hall).
    + right. exists before, s, after. split; [reflexivity|].
      split; [exact Hdone|].
      destruct (chain_first_open before s after Hchain Hdone Hs) as [Hopen Hafter].
      rewrite flat_map_app, (warning_of_done before Hdone). simpl.
      rewrite (warning_of_locked after Hafter). unfold warning_of.
      destruct (step_status s); try congruence; [right|left]; now split.
Qed.

(** The worked example of X10: in scenario 1 the balance on the ground
    is out of limit and the three stages after it are incomplete. *)
Lemma warnings_follow_the_chain_witness :
  Diags._warnings sample_cfg scenario1_device
  = Ok [ "GND 100% NR  Mass Bal: OUT OF LIMIT";
         "HOVER  Lateral Decision: INCOMPLETE";
         "120 KIAS  Vertical Smooth: INCOMPLETE";
         "LETDOWN  Final Trim: INCOMPLETE" ]
  /\ ((dict_empty (snd (Diags._active_runs scenario1_device)) = true
       /\ [ "GND 100% NR  Mass Bal: OUT OF LIMIT";
            "HOVER  Lateral Decision: INCOMPLETE";
            "120 KIAS  Vertical Smooth: INCOMPLETE";
            "LETDOWN  Final Trim: INCOMPLETE" ] = ["No measurements available."])
      \/ exists l,
           step_summaries_for_bht412 sample_cfg
             (snd (Diags._active_runs scenario1_device)) = Ok l
           /\ ((Forall (fun s => step_status s = DONE) l
                /\ [ "GND 100% NR  Mass Bal: OUT OF LIMIT";
                     "HOVER  Lateral Decision: INCOMPLETE";
                     "120 KIAS  Vertical Smooth: INCOMPLETE";
                     "LETDOWN  Final Trim: INCOMPLETE" ]
                   = ["All measurements within limits"])
               \/ exists before s after,
                    l = before ++ s :: after
                    /\ Forall (fun s' => step_status s' = DONE) before
                    /\ ((step_status s = NEEDS
                         /\ [ "GND 100% NR  Mass Bal: OUT OF LIMIT";
                              "HOVER  Lateral Decision: INCOMPLETE";
                              "120 KIAS  Vertical Smooth: INCOMPLETE";
                              "LETDOWN  Final Trim: INCOMPLETE" ]
                            = (label s +:+ ": OUT OF LIMIT") :: map incomplete after)
                        \/ (step_status s = MISSING
                            /\ [ "GND 100% NR  Mass Bal: OUT OF LIMIT";
                                 "HOVER  Lateral Decision: INCOMPLETE";
                                 "120 KIAS  Vertical Smooth: INCOMPLETE";
                                 "LETDOWN  Final Trim: INCOMPLETE" ]
                               = incomplete s :: map incomplete after)))).
Proof.
  assert (H : Diags._warnings sample_cfg scenario1_device
              = Ok [ "GND 100% NR  Mass Bal: OUT OF LIMIT";
                     "HOVER  Lateral Decision: INCOMPLETE";
                     "120 KIAS  Vertical Smooth: INCOMPLETE";
                     "LETDOWN  Final Trim: INCOMPLETE" ])
    by (vm_compute; reflexivity).
  split; [exact H|].
  exact (warnings_follow_the_chain sample_cfg scenario1_device _ H).
Defined.

(** The worked example of X9: the file is removed, then garbled. *)
Lemma menu_loader_keeps_first_document_witness :
  Forall (fun r => r = Ok (JObject [("ground_ips_limit", JNumber (NFloat 0.15))]))
    (Diags.loads JNull "rads" [first_files; ∅; garbled_files]).
Proof.
  apply (menu_loader_keeps_first_document "rads" first_files
           (JObject [("ground_ips_limit", JNumber (NFloat 0.15))])
           [∅; garbled_files]).
  - vm_compute; reflexivity.
  - discriminate.
Defined.

(** ** The active flight *)

Lemma str_le_trans (a b c : string) :
  Diags.str_le a b -> Diags.str_le b c -> Diags.str_le a c.
Proof.
  unfold Diags.str_le, String.leb. revert b c.
  induction a as [|x a IH]; intros [|y b] [|z c]; simpl; try congruence.
  unfold Ascii.compare.
  destruct (N.compare_spec (N_of_ascii x) (N_of_ascii y)) as [Hxy|Hxy|Hxy];
    destruct (N.compare_spec (N_of_ascii y) (N_of_ascii z)) as [Hyz|Hyz|Hyz];
    destruct (N.compare_spec (N_of_ascii x) (N_of_ascii z)) as [Hxz|Hxz|Hxz];
    try congruence; try lia.
  apply IH.
Qed.

#[global] Instance str_le_transitive : Transitive Diags.str_le := str_le_trans.

#[global] Instance str_le_total : Total Diags.str_le :=
  fun a b => String.leb_total a b.





